(** * Platform detection of omnisharp-vscode (src/platform.ts)

    A shallow embedding of [LinuxDistribution.FromReleaseInfo] and of
    [PlatformInformation]'s constructor and runtime-id resolution, with the
    properties of the specification proved over it.

    Conventions of the model.
    - A JavaScript string is a [string]: each [ascii] stands for one UTF-16
      code unit in the range U+0000..U+00FF.  Strings holding code units
      above U+00FF are outside the model.
    - [null] and [undefined] are [None] of an [option].
    - A [throw] is the [Throw] constructor of [result]; [try]/[catch] is
      [try_catch]. *)

From Stdlib Require Import String Ascii List ZArith Lia Bool.
Import ListNotations.

Local Open Scope string_scope.
Local Open Scope Z_scope.

(** ** JavaScript string primitives used by the source *)

Module JsString.

(** [String.prototype.trim] removes WhiteSpace and LineTerminator code
    units; below U+0100 these are TAB, LF, VT, FF, CR, SP and NBSP. *)
Definition isWhiteSpace (c : ascii) : bool :=
  let n := nat_of_ascii c in
  (Nat.eqb n 9 || Nat.eqb n 10 || Nat.eqb n 11 || Nat.eqb n 12
   || Nat.eqb n 13 || Nat.eqb n 32 || Nat.eqb n 160)%bool.

Fixpoint trimStart (s : string) : string :=
  match s with
  | EmptyString => EmptyString
  | String c s' => if isWhiteSpace c then trimStart s' else s
  end.

Fixpoint trimEnd (s : string) : string :=
  match s with
  | EmptyString => EmptyString
  | String c s' =>
      let t := trimEnd s' in
      if (isWhiteSpace c && (t =? EmptyString)%string)%bool then EmptyString
      else String c t
  end.

Definition trim (s : string) : string := trimEnd (trimStart s).

(** [s.startsWith(p)] *)
Definition startsWith (s p : string) : bool := prefix p s.

(** [s.endsWith(p)]: [p] is the text of [s] from [s.length - p.length]. *)
Definition endsWith (s p : string) : bool :=
  let n := String.length s in
  let m := String.length p in
  (Nat.leb m n && (String.substring (n - m) m s =? p)%string)%bool.

(** [s.indexOf(search)]: the least position at which [search] occurs,
    or [-1]. *)
Fixpoint indexOf (s search : string) : Z :=
  if prefix search s then 0
  else match s with
       | EmptyString => -1
       | String _ s' =>
           let r := indexOf s' search in
           if r <? 0 then -1 else r + 1
       end.

(** [s.substring(start, end)]: both indices are clamped to
    [0 .. s.length] and swapped when [start > end]. *)
Definition substring (s : string) (start end_ : Z) : string :=
  let len := Z.of_nat (String.length s) in
  let a := Z.min (Z.max start 0) len in
  let b := Z.min (Z.max end_ 0) len in
  let from := Z.min a b in
  let to := Z.max a b in
  String.substring (Z.to_nat from) (Z.to_nat (to - from)) s.

(** [s.substring(start)]: [end] defaults to [s.length]. *)
Definition substringFrom (s : string) (start : Z) : string :=
  substring s start (Z.of_nat (String.length s)).

(** The scan of [String.prototype.split] for a non-empty separator:
    [cur] is the text since the last separator, [skip] the number of code
    units of a matched separator still to pass over. *)
Fixpoint splitAux (sep : string) (skip : nat) (cur s : string)
  : list string :=
  match s with
  | EmptyString => [cur]
  | String c s' =>
      match skip with
      | S k => splitAux sep k cur s'
      | O =>
          if prefix sep s
          then cur :: splitAux sep (String.length sep - 1) EmptyString s'
          else splitAux sep 0 (cur ++ String c EmptyString) s'
      end
  end.

(** [s.split(sep)]: with an empty separator the result is the list of
    the code units of [s] (empty for the empty string); otherwise [s] is
    cut at the occurrences of [sep], found left to right without
    overlap. *)
Definition split (s sep : string) : list string :=
  if (sep =? EmptyString)%string
  then map (fun c => String c EmptyString) (list_ascii_of_string s)
  else splitAux sep 0 EmptyString s.

End JsString.

(** ** LinuxDistribution *)

Definition unknown : string := "unknown".

Record LinuxDistribution : Type := mkLinuxDistribution {
  name : string;
  version : string;
  idLike : option (list string)
}.

(** The one-character string holding a double quote (U+0022). *)
Definition dquote : string := String (ascii_of_nat 34) EmptyString.

(** Lines 63-66: strip the double quotes if necessary. *)
Definition stripQuotes (value : string) : string :=
  if ((1 <? Z.of_nat (String.length value))
      && JsString.startsWith value dquote
      && JsString.endsWith value dquote)%bool
  then JsString.substring value 1 (Z.of_nat (String.length value) - 1)
  else value.

(** Lines 56-66: the trimmed line is cut at its first equals sign into a
    key and a value (quotes stripped); [None] when the line has no equals
    sign, in which case the loop body does nothing. *)
Definition keyValue (line : string) : option (string * string) :=
  let line := JsString.trim line in
  let equalsIndex := JsString.indexOf line "=" in
  if 0 <=? equalsIndex then
    let key := JsString.substring line 0 equalsIndex in
    let value := JsString.substringFrom line (equalsIndex + 1) in
    Some (key, stripQuotes value)
  else None.

(** Lines 68-76: the three recognised keys.  The locals [name], [version]
    and [idLike] of [FromReleaseInfo] are kept in a [LinuxDistribution]. *)
Definition assignKey (key value : string) (st : LinuxDistribution)
  : LinuxDistribution :=
  if (key =? "ID")%string then
    mkLinuxDistribution value (version st) (idLike st)
  else if (key =? "VERSION_ID")%string then
    mkLinuxDistribution (name st) value (idLike st)
  else if (key =? "ID_LIKE")%string then
    mkLinuxDistribution (name st) (version st)
                        (Some (JsString.split value " "))
  else st.

(** Line 78: [name !== unknown && version !== unknown && idLike !== null]. *)
Definition allAssigned (st : LinuxDistribution) : bool :=
  (negb (name st =? unknown)%string
   && negb (version st =? unknown)%string
   && match idLike st with Some _ => true | None => false end)%bool.

(** Lines 55-82: the [for] loop over the lines, with its [break]. *)
Fixpoint scanLines (lines : list string) (st : LinuxDistribution)
  : LinuxDistribution :=
  match lines with
  | [] => st
  | line :: rest =>
      match keyValue line with
      | Some (key, value) =>
          let st' := assignKey key value st in
          if allAssigned st' then st' else scanLines rest st'
      | None => scanLines rest st
      end
  end.

(** Lines 50-52: the initial values of the locals. *)
Definition initialLocals : LinuxDistribution :=
  mkLinuxDistribution unknown unknown None.

(** Lines 49-85.  [eol] is explicit: the source defaults it to [os.EOL]. *)
Definition FromReleaseInfo (releaseInfo eol : string) : LinuxDistribution :=
  scanLines (JsString.split releaseInfo eol) initialLocals.

(** ** Exceptions *)

Inductive exn : Type :=
| Error (message : string)   (* [new Error(message)] *)
| TypeError.                 (* reading a property of [null] *)

Inductive result (A : Type) : Type :=
| Ok (a : A)
| Throw (e : exn).

Arguments Ok {A} a.
Arguments Throw {A} e.

Definition bind {A B : Type} (m : result A) (k : A -> result B) : result B :=
  match m with
  | Ok a => k a
  | Throw e => Throw e
  end.

Notation "x <- m ;; k" := (bind m (fun x => k))
  (at level 61, m at next level, right associativity).

(** [try { body } catch (err) { handler }] *)
Definition try_catch {A : Type} (body : result A) (handler : exn -> result A)
  : result A :=
  match body with
  | Ok a => Ok a
  | Throw e => handler e
  end.

(** ** LinuxRuntimeId (lines 359-374) *)

Module LinuxRuntimeId.
Definition unknown_distribution : string := "unknown_distribution".
Definition unknown_version : string := "unknown_version".

Definition centos_7 : string := "centos.7-x64".
Definition debian_8 : string := "debian.8-x64".
Definition fedora_23 : string := "fedora.23-x64".
Definition fedora_24 : string := "fedora.24-x64".
Definition opensuse_13_2 : string := "opensuse.13.2-x64".
Definition opensuse_42_1 : string := "opensuse.42.1-x64".
Definition rhel_7 : string := "rhel.7-x64".
Definition ubuntu_14_04 : string := "ubuntu.14.04-x64".
Definition ubuntu_16_04 : string := "ubuntu.16.04-x64".
Definition ubuntu_16_10 : string := "ubuntu.16.10-x64".
End LinuxRuntimeId.

(** ** ILinuxRuntimeIdFallback (lines 376-379)

    The provider is caller code: its one method yields a string, a falsy
    value ([None] for [null]/[undefined]), or throws. *)
Record ILinuxRuntimeIdFallback : Type := mkFallback {
  getFallbackLinuxRuntimeId : result (option string)
}.

(** ** PlatformInformation *)

Record PlatformInformation : Type := mkPlatformInformation {
  platform : string;
  architecture : option string;
  distribution : option LinuxDistribution;
  runtimeId : option string
}.

(** Lines 264-316. *)
Definition getExactRuntimeId (distributionName distributionVersion : string)
  : string :=
  if (distributionName =? "ubuntu")%string then
    if (distributionVersion =? "14.04")%string then
      LinuxRuntimeId.ubuntu_14_04
    else if (distributionVersion =? "16.04")%string then
      LinuxRuntimeId.ubuntu_16_04
    else if (distributionVersion =? "16.10")%string then
      LinuxRuntimeId.ubuntu_16_10
    else LinuxRuntimeId.unknown_version
  else if (distributionName =? "linuxmint")%string then
    if JsString.startsWith distributionVersion "18" then
      LinuxRuntimeId.ubuntu_16_04
    else LinuxRuntimeId.unknown_version
  else if ((distributionName =? "centos")
           || (distributionName =? "ol"))%string%bool then
    LinuxRuntimeId.centos_7
  else if (distributionName =? "fedora")%string then
    if (distributionVersion =? "23")%string then
      LinuxRuntimeId.fedora_23
    else if (distributionVersion =? "24")%string then
      LinuxRuntimeId.fedora_24
    else LinuxRuntimeId.unknown_version
  else if (distributionName =? "opensuse")%string then
    if JsString.startsWith distributionVersion "13." then
      LinuxRuntimeId.opensuse_13_2
    else if JsString.startsWith distributionVersion "42." then
      LinuxRuntimeId.opensuse_42_1
    else LinuxRuntimeId.unknown_version
  else if (distributionName =? "rhel")%string then
    LinuxRuntimeId.rhel_7
  else if (distributionName =? "debian")%string then
    LinuxRuntimeId.debian_8
  else LinuxRuntimeId.unknown_distribution.

(** Lines 318-356. *)
Definition getRuntimeIdHelper (distributionName distributionVersion : string)
  : string :=
  let runtimeId := getExactRuntimeId distributionName distributionVersion in
  if negb (runtimeId =? LinuxRuntimeId.unknown_distribution)%string then
    runtimeId
  else if ((distributionName =? "Zorin OS")
           || (distributionName =? "zorin"))%string%bool then
    if (distributionVersion =? "12")%string then
      LinuxRuntimeId.ubuntu_16_04
    else LinuxRuntimeId.unknown_version
  else if ((distributionName =? "elementary")
           || (distributionName =? "elementary OS"))%string%bool then
    if JsString.startsWith distributionVersion "0.3" then
      LinuxRuntimeId.ubuntu_14_04
    else if JsString.startsWith distributionVersion "0.4" then
      LinuxRuntimeId.ubuntu_16_04
    else LinuxRuntimeId.unknown_version
  else if (distributionName =? "galliumos")%string then
    if (JsString.startsWith distributionVersion "2.0"
        || JsString.startsWith distributionVersion "2.1")%bool then
      LinuxRuntimeId.ubuntu_16_04
    else LinuxRuntimeId.unknown_version
  else LinuxRuntimeId.unknown_distribution.

(** [a === s] for a value [a] that is a string or [null]. *)
Definition strictEq (a : option string) (s : string) : bool :=
  match a with
  | Some x => (x =? s)%string
  | None => false
  end.

(** The text of a string-or-[null] value inside a template literal or a
    string concatenation. *)
Definition toText (a : option string) : string :=
  match a with
  | Some x => x
  | None => "null"
  end.

(** The truthiness of a string-or-[null] value: [null], [undefined] and the
    empty string are falsy. *)
Definition truthy (a : option string) : option string :=
  match a with
  | Some EmptyString => None
  | Some x => Some x
  | None => None
  end.

(** Line 256: the [throw] that ends the ['linux'] case.  Building the
    message reads [distribution.name] first. *)
Definition unsupportedLinux (distribution : option LinuxDistribution)
  (architecture : option string) : result string :=
  match distribution with
  | None => Throw TypeError
  | Some d =>
      Throw (Error ("Unsupported Linux distro: " ++ name d ++ ", "
                    ++ version d ++ ", " ++ toText architecture))
  end.

(** Lines 242-247: the [for] loop over [distribution.idLike]. *)
Fixpoint idLikeLoop (ids : list string) (distributionVersion : string)
  (runtimeId : string) : string :=
  match ids with
  | [] => runtimeId
  | id :: rest =>
      let runtimeId := getRuntimeIdHelper id distributionVersion in
      if negb (runtimeId =? LinuxRuntimeId.unknown_distribution)%string
      then runtimeId
      else idLikeLoop rest distributionVersion runtimeId
  end.

(** Lines 224-230: the caller's fall back value, asked for only when the
    exact lookup gave a sentinel and a provider was passed. *)
Definition applyFallback (runtimeId : string)
  (linuxFallbackRuntimeId : option ILinuxRuntimeIdFallback) : result string :=
  match linuxFallbackRuntimeId with
  | Some provider =>
      if ((runtimeId =? LinuxRuntimeId.unknown_distribution)
          || (runtimeId =? LinuxRuntimeId.unknown_version))%string%bool
      then
        fallbackRuntimeValue <- getFallbackLinuxRuntimeId provider ;;
        match truthy fallbackRuntimeValue with
        | Some v => Ok v
        | None => Ok runtimeId
        end
      else Ok runtimeId
  | None => Ok runtimeId
  end.

(** Lines 196-262. *)
Definition getRuntimeId (platform : string) (architecture : option string)
  (distribution : option LinuxDistribution)
  (linuxFallbackRuntimeId : option ILinuxRuntimeIdFallback) : result string :=
  if (platform =? "win32")%string then
    if strictEq architecture "x86" then Ok "win7-x86"
    else if strictEq architecture "x86_64" then Ok "win7-x64"
    else Throw (Error ("Unsupported Windows architecture: "
                       ++ toText architecture))
  else if (platform =? "darwin")%string then
    if strictEq architecture "x86_64" then Ok "osx.10.11-x64"
    else Throw (Error ("Unsupported macOS architecture: "
                       ++ toText architecture))
  else if (platform =? "linux")%string then
    if strictEq architecture "x86_64" then
      match distribution with
      | None => Throw TypeError
      | Some d =>
          (* First try the distribution name *)
          let runtimeId := getExactRuntimeId (name d) (version d) in
          runtimeId <- applyFallback runtimeId linuxFallbackRuntimeId ;;
          (* try again with more fuzzy matching *)
          let runtimeId :=
            if (runtimeId =? LinuxRuntimeId.unknown_distribution)%string
            then getRuntimeIdHelper (name d) (version d)
            else runtimeId in
          (* use the 'ID_LIKE' field *)
          let runtimeId :=
            match idLike d with
            | Some ids =>
                if ((runtimeId =? LinuxRuntimeId.unknown_distribution)%string
                    && (0 <? Z.of_nat (List.length ids)))%bool
                then idLikeLoop ids (version d) runtimeId
                else runtimeId
            | None => runtimeId
            end in
          if (negb (runtimeId =? LinuxRuntimeId.unknown_distribution)%string
              && negb (runtimeId =? LinuxRuntimeId.unknown_version)%string)%bool
          then Ok runtimeId
          else unsupportedLinux distribution architecture
      end
    else unsupportedLinux distribution architecture
  else Throw (Error ("Unsupported platform " ++ platform)).

(** Lines 91-103: the constructor.  The parameter properties are assigned,
    then [runtimeId] inside [try]/[catch]. *)
Definition newPlatformInformation (platform : string)
  (architecture : option string) (distribution : option LinuxDistribution)
  (linuxFallbackRuntimeId : option ILinuxRuntimeIdFallback)
  : result PlatformInformation :=
  runtimeId <-
    try_catch
      (r <- getRuntimeId platform architecture distribution
                         linuxFallbackRuntimeId ;;
       Ok (Some r))
      (fun err => Ok None) ;;
  Ok (mkPlatformInformation platform architecture distribution runtimeId).

(** Lines 105-115. *)
Definition isWindows (this : PlatformInformation) : bool :=
  (platform this =? "win32")%string.

Definition isMacOS (this : PlatformInformation) : bool :=
  (platform this =? "darwin")%string.

Definition isLinux (this : PlatformInformation) : bool :=
  (platform this =? "linux")%string.

(** Lines 32-34: [LinuxDistribution.toString]. *)
Definition LinuxDistribution_toString (this : LinuxDistribution) : string :=
  "name=" ++ name this ++ ", version=" ++ version this.

(** [if (result)] on a string: the empty string is falsy. *)
Definition nonEmpty (s : string) : bool :=
  match s with
  | EmptyString => false
  | String _ _ => true
  end.

(** Lines 117-137: [PlatformInformation.toString]. *)
Definition PlatformInformation_toString (this : PlatformInformation) : string :=
  let result := platform this in
  let result :=
    match truthy (architecture this) with
    | Some a =>
        let result := if nonEmpty result then result ++ ", " else result in
        result ++ a
    | None => result
    end in
  let result :=
    match distribution this with
    | Some d =>
        let result := if nonEmpty result then result ++ ", " else result in
        result ++ LinuxDistribution_toString d
    | None => result
    end in
  result.

(** ** The host and its promises

    What the code reads from its host: [os.platform()], [os.EOL], two
    variables of [process.env] ([None] when undefined), [fs.readFile] with
    encoding utf8 (the data, or the error passed to the callback), and
    [util.execChildProcess] of [./common], whose source is not part of the
    files modelled here and which is taken as it is used: a promise of the
    output of a command. *)
Record Host : Type := mkHost {
  os_platform : string;
  os_EOL : string;
  PROCESSOR_ARCHITECTURE : option string;
  PROCESSOR_ARCHITEW6432 : option string;
  readFile : string -> result string;
  execChildProcess : string -> result (option string)
}.

(** A settled promise: [Ok] when resolved, [Throw] when rejected. *)
Definition promise (A : Type) : Type := result A.

(** [Promise.all] of two promises.  When both reject, JavaScript reports
    the one that rejected first in time; the model takes the first
    argument's.  ([LinuxDistribution_GetCurrent], the second argument where
    it is used, never rejects.) *)
Definition promiseAll {A B : Type} (pa : promise A) (pb : promise B)
  : promise (A * B) :=
  match pa, pb with
  | Ok a, Ok b => Ok (a, b)
  | Throw e, _ => Throw e
  | Ok _, Throw e => Throw e
  end.

(** Lines 36-47: [LinuxDistribution.FromFilePath].  [FromReleaseInfo] is
    called with its default separator, [os.EOL]. *)
Definition LinuxDistribution_FromFilePath (host : Host) (filePath : string)
  : promise LinuxDistribution :=
  data <- readFile host filePath ;;
  Ok (FromReleaseInfo data (os_EOL host)).

(** Lines 24-30: [LinuxDistribution.GetCurrent]; [p.catch(f)] is
    [try_catch p f].  The last resort is built without [idLike]. *)
Definition LinuxDistribution_GetCurrent (host : Host)
  : promise LinuxDistribution :=
  try_catch
    (try_catch
       (LinuxDistribution_FromFilePath host "/etc/os-release")
       (fun _ => LinuxDistribution_FromFilePath host "/usr/lib/os-release"))
    (fun _ => Ok (mkLinuxDistribution unknown unknown None)).

(** Lines 170-179. *)
Definition GetWindowsArchitecture (host : Host) : promise (option string) :=
  if (strictEq (PROCESSOR_ARCHITECTURE host) "x86"
      && match PROCESSOR_ARCHITEW6432 host with
         | None => true
         | Some _ => false
         end)%bool
  then Ok (Some "x86")
  else Ok (Some "x86_64").

(** Lines 181-190. *)
Definition GetUnixArchitecture (host : Host) : promise (option string) :=
  architecture <- execChildProcess host "uname -m" ;;
  match truthy architecture with
  | Some a => Ok (Some (JsString.trim a))
  | None => Ok None
  end.

(** Lines 164-167: both promises are awaited, then the value is built. *)
Definition whenDetected (platform : string)
  (architecturePromise : promise (option string))
  (distributionPromise : promise (option LinuxDistribution))
  (linuxFallbackRuntimeId : option ILinuxRuntimeIdFallback)
  : promise PlatformInformation :=
  ad <- promiseAll architecturePromise distributionPromise ;;
  newPlatformInformation platform (fst ad) (snd ad) linuxFallbackRuntimeId.

(** Lines 139-168: [PlatformInformation.GetCurrent].  The outer [result]
    is the call itself (the [throw] of line 161 is synchronous), the inner
    one the promise it returns. *)
Definition PlatformInformation_GetCurrent (host : Host)
  (linuxFallbackRuntimeId : option ILinuxRuntimeIdFallback)
  : result (promise PlatformInformation) :=
  let platform := os_platform host in
  if (platform =? "win32")%string then
    Ok (whenDetected platform (GetWindowsArchitecture host) (Ok None)
          linuxFallbackRuntimeId)
  else if (platform =? "darwin")%string then
    Ok (whenDetected platform (GetUnixArchitecture host) (Ok None)
          linuxFallbackRuntimeId)
  else if (platform =? "linux")%string then
    Ok (whenDetected platform (GetUnixArchitecture host)
          (d <- LinuxDistribution_GetCurrent host ;; Ok (Some d))
          linuxFallbackRuntimeId)
  else Throw (Error ("Unsupported platform: " ++ platform)).

(** ** Vocabulary of the statements *)

(** A lookup-miss marker, as tested on lines 224 and 250. *)
Definition isSentinel (runtimeId : string) : bool :=
  ((runtimeId =? LinuxRuntimeId.unknown_distribution)
   || (runtimeId =? LinuxRuntimeId.unknown_version))%string%bool.

(** The [case] labels of [getExactRuntimeId]. *)
Definition exactTableNames : list string :=
  ["ubuntu"; "linuxmint"; "centos"; "ol"; "fedora"; "opensuse"; "rhel";
   "debian"].

(** The [case] labels that [getRuntimeIdHelper] adds. *)
Definition fuzzyTableNames : list string :=
  ["Zorin OS"; "zorin"; "elementary"; "elementary OS"; "galliumos"].

(** A fall back provider that changes nothing: none was passed, or the one
    passed yields a falsy value. *)
Definition silent (fb : option ILinuxRuntimeIdFallback) : Prop :=
  match fb with
  | None => True
  | Some provider =>
      exists v, getFallbackLinuxRuntimeId provider = Ok v /\ truthy v = None
  end.

(** The ancestor ids the loop of lines 242-247 visits. *)
Definition ancestors (d : LinuxDistribution) : list string :=
  match idLike d with
  | Some ids => ids
  | None => []
  end.

(** Lines 232-256 of [getRuntimeId] as a function of the runtime id that
    lines 221-230 leave; [getRuntimeId_linux] ties it to the code. *)
Definition afterFallback (d : LinuxDistribution) (architecture : option string)
  (runtimeId : string) : result string :=
  let runtimeId :=
    if (runtimeId =? LinuxRuntimeId.unknown_distribution)%string
    then getRuntimeIdHelper (name d) (version d)
    else runtimeId in
  let runtimeId :=
    match idLike d with
    | Some ids =>
        if ((runtimeId =? LinuxRuntimeId.unknown_distribution)%string
            && (0 <? Z.of_nat (List.length ids)))%bool
        then idLikeLoop ids (version d) runtimeId
        else runtimeId
    | None => runtimeId
    end in
  if (negb (runtimeId =? LinuxRuntimeId.unknown_distribution)%string
      && negb (runtimeId =? LinuxRuntimeId.unknown_version)%string)%bool
  then Ok runtimeId
  else unsupportedLinux (Some d) architecture.

(** The line separators [\n] and [\r\n]. *)
Definition nl : string := String (ascii_of_nat 10) EmptyString.
Definition crlf : string := String (ascii_of_nat 13) nl.

(** Line 58 on the untrimmed line: does the line hold an equals sign? *)
Definition hasEquals (line : string) : bool :=
  0 <=? JsString.indexOf line "=".

(** Line 64: the condition under which the quotes are stripped. *)
Definition quoted (value : string) : Prop :=
  (1 < String.length value)%nat
  /\ JsString.startsWith value dquote = true
  /\ JsString.endsWith value dquote = true.

(** Does the line carry one of the three keys of lines 68-76? *)
Definition recognisedLine (line : string) : bool :=
  match keyValue line with
  | Some (key, _) =>
      ((key =? "ID") || (key =? "VERSION_ID") || (key =? "ID_LIKE"))%string%bool
  | None => false
  end.

(** The loop of lines 55-82 without its [break]: every line is applied. *)
Definition applyLines (lines : list string) (st : LinuxDistribution)
  : LinuxDistribution :=
  fold_left
    (fun st line =>
       match keyValue line with
       | Some (key, value) => assignKey key value st
       | None => st
       end)
    lines st.

(** A string of white space only. *)
Definition allWhiteSpace (w : string) : bool :=
  forallb JsString.isWhiteSpace (list_ascii_of_string w).

(** [padded] is [line] with white space added before and after. *)
Definition paddingOf (line padded : string) : Prop :=
  exists w1 w2,
    allWhiteSpace w1 = true /\ allWhiteSpace w2 = true
    /\ padded = (w1 ++ line ++ w2)%string.

(** The runtime ids the code itself can produce. *)
Definition linuxRuntimeIds : list string :=
  [LinuxRuntimeId.centos_7; LinuxRuntimeId.debian_8;
   LinuxRuntimeId.fedora_23; LinuxRuntimeId.fedora_24;
   LinuxRuntimeId.opensuse_13_2; LinuxRuntimeId.opensuse_42_1;
   LinuxRuntimeId.rhel_7; LinuxRuntimeId.ubuntu_14_04;
   LinuxRuntimeId.ubuntu_16_04; LinuxRuntimeId.ubuntu_16_10].

Definition supportedRuntimeIds : list string :=
  ["win7-x86"; "win7-x64"; "osx.10.11-x64"] ++ linuxRuntimeIds.

(** The parts [PlatformInformation.toString] joins: those that are truthy. *)
Definition shownParts (this : PlatformInformation) : list string :=
  (if nonEmpty (platform this) then [platform this] else [])
  ++ match truthy (architecture this) with
     | Some a => [a]
     | None => []
     end
  ++ match distribution this with
     | Some d => [LinuxDistribution_toString d]
     | None => []
     end.

(** The architecture that lines 181-190 make of the output of the
    command. *)
Definition unixArchitecture (out : option string) : option string :=
  match truthy out with
  | Some a => Some (JsString.trim a)
  | None => None
  end.

(** * Properties *)

(** ** Checks of the primitives on concrete inputs *)

Example split_lines :
  JsString.split ("a" ++ nl ++ "b" ++ nl) nl = ["a"; "b"; EmptyString].
Proof. reflexivity. Qed.

Example split_crlf :
  JsString.split ("a" ++ crlf ++ crlf ++ "b") crlf = ["a"; EmptyString; "b"].
Proof. reflexivity. Qed.

Example split_no_overlap : JsString.split "aaa" "aa" = [EmptyString; "a"].
Proof. reflexivity. Qed.

Example split_empty_separator : JsString.split "abc" EmptyString = ["a"; "b"; "c"].
Proof. reflexivity. Qed.

Example split_empty_text : JsString.split EmptyString nl = [EmptyString].
Proof. reflexivity. Qed.

Example split_empty_both : JsString.split EmptyString EmptyString = [].
Proof. reflexivity. Qed.

Example trim_both : JsString.trim ("  a b " ++ crlf) = "a b".
Proof. reflexivity. Qed.

Example indexOf_found : JsString.indexOf "ID=a=b" "=" = 2.
Proof. reflexivity. Qed.

Example indexOf_missing : JsString.indexOf "abc" "=" = -1.
Proof. reflexivity. Qed.

Example substring_swaps : JsString.substring "abcdef" 4 1 = "bcd".
Proof. reflexivity. Qed.

Example endsWith_quote : JsString.endsWith ("a" ++ dquote) dquote = true.
Proof. reflexivity. Qed.

Example id_like_two :
  FromReleaseInfo ("ID_LIKE=" ++ dquote ++ "debian suse" ++ dquote) nl
  = mkLinuxDistribution unknown unknown (Some ["debian"; "suse"]).
Proof. reflexivity. Qed.


(** ** Runtime-id tables *)

Section Tables.

Import LinuxRuntimeId.

Ltac case_eqb :=
  repeat match goal with
    | |- context [(?a =? ?b)%string] =>
        let E := fresh "E" in destruct (a =? b)%string eqn:E
    | |- context [JsString.startsWith ?a ?b] =>
        let E := fresh "E" in destruct (JsString.startsWith a b) eqn:E
    end.

(** No entry of the exact table holds the text of a sentinel by accident:
    a sentinel result means a lookup miss. *)
Lemma getExactRuntimeId_unknown_distribution (n v : string) :
  getExactRuntimeId n v = unknown_distribution
  <-> ~ In n exactTableNames.
Proof.
  unfold getExactRuntimeId, exactTableNames. split.
  - intros H [<- | [<- | [<- | [<- | [<- | [<- | [<- | [<- | []]]]]]]]];
      simpl in H; revert H; case_eqb; discriminate.
  - intros H.
    assert (forall x, In x ["ubuntu"; "linuxmint"; "centos"; "ol"; "fedora";
                             "opensuse"; "rhel"; "debian"]
                      -> (n =? x)%string = false) as Hn.
    { intros x Hx. apply String.eqb_neq. intros ->. exact (H Hx). }
    rewrite !Hn by (simpl; tauto). reflexivity.
Qed.

Lemma getRuntimeIdHelper_exact (n v : string) :
  getExactRuntimeId n v <> unknown_distribution ->
  getRuntimeIdHelper n v = getExactRuntimeId n v.
Proof.
  intros H. unfold getRuntimeIdHelper.
  apply String.eqb_neq in H. rewrite H. reflexivity.
Qed.

Lemma getRuntimeIdHelper_unknown_distribution (n v : string) :
  getRuntimeIdHelper n v = unknown_distribution
  <-> ~ In n exactTableNames /\ ~ In n fuzzyTableNames.
Proof.
  split.
  - intros H.
    assert (getExactRuntimeId n v = unknown_distribution) as Hx.
    { destruct (String.eqb_spec (getExactRuntimeId n v) unknown_distribution)
        as [e | ne]; [exact e |].
      rewrite (getRuntimeIdHelper_exact _ _ ne) in H. contradiction. }
    split; [apply (getExactRuntimeId_unknown_distribution n v); exact Hx |].
    unfold getRuntimeIdHelper in H. rewrite Hx in H. simpl in H.
    unfold fuzzyTableNames.
    intros [<- | [<- | [<- | [<- | [<- | []]]]]];
      simpl in H; revert H; case_eqb; discriminate.
  - intros [Hx Hf].
    apply (getExactRuntimeId_unknown_distribution n v) in Hx.
    unfold getRuntimeIdHelper. rewrite Hx. simpl.
    assert (forall x, In x fuzzyTableNames -> (n =? x)%string = false) as Hn.
    { intros x Hin. apply String.eqb_neq. intros ->. exact (Hf Hin). }
    rewrite !Hn by (simpl; tauto). reflexivity.
Qed.

Lemma getRuntimeIdHelper_unknown_exact (n v : string) :
  getRuntimeIdHelper n v = unknown_distribution ->
  getExactRuntimeId n v = unknown_distribution.
Proof.
  intros H. apply getRuntimeIdHelper_unknown_distribution in H.
  apply getExactRuntimeId_unknown_distribution. tauto.
Qed.

End Tables.

(** ** The fall back provider *)

Section Fallback.

Import LinuxRuntimeId.

Lemma isSentinel_false (r : string) :
  isSentinel r = false <-> r <> unknown_distribution /\ r <> unknown_version.
Proof.
  unfold isSentinel. rewrite orb_false_iff, !String.eqb_neq. tauto.
Qed.

Lemma isSentinel_true (r : string) :
  isSentinel r = true <-> r = unknown_distribution \/ r = unknown_version.
Proof.
  unfold isSentinel. rewrite orb_true_iff, !String.eqb_eq. tauto.
Qed.

Lemma truthy_Some (v : string) : v <> EmptyString -> truthy (Some v) = Some v.
Proof. destruct v; [congruence | reflexivity]. Qed.

Lemma applyFallback_real (r : string) fb :
  isSentinel r = false -> applyFallback r fb = Ok r.
Proof.
  intros H. unfold applyFallback. destruct fb as [p |]; [| reflexivity].
  unfold isSentinel in H. rewrite H. reflexivity.
Qed.

Lemma applyFallback_silent (r : string) fb :
  silent fb -> applyFallback r fb = Ok r.
Proof.
  destruct fb as [p |]; simpl; [| reflexivity].
  intros (v & Hv & Ht). rewrite Hv. cbn [bind]. rewrite Ht.
  destruct (_ || _)%bool; reflexivity.
Qed.

Lemma applyFallback_adopt (r v : string) (p : ILinuxRuntimeIdFallback) :
  isSentinel r = true ->
  getFallbackLinuxRuntimeId p = Ok (Some v) ->
  v <> EmptyString ->
  applyFallback r (Some p) = Ok v.
Proof.
  intros Hr Hp Hv. unfold applyFallback. unfold isSentinel in Hr.
  rewrite Hr, Hp. cbn [bind]. rewrite (truthy_Some _ Hv). reflexivity.
Qed.

End Fallback.

(** ** Runtime-id resolution on linux *)

Section Linux.

Import LinuxRuntimeId.

Lemma getRuntimeId_linux (d : LinuxDistribution) fb :
  getRuntimeId "linux" (Some "x86_64") (Some d) fb
  = (r <- applyFallback (getExactRuntimeId (name d) (version d)) fb ;;
     afterFallback d (Some "x86_64") r).
Proof. reflexivity. Qed.

Lemma afterFallback_real (d : LinuxDistribution) a (r : string) :
  isSentinel r = false -> afterFallback d a r = Ok r.
Proof.
  intros H. pose proof H as H'. unfold isSentinel in H'.
  apply orb_false_iff in H' as [Hd Hv].
  unfold afterFallback. rewrite Hd.
  destruct (idLike d); cbn [andb negb];
    repeat (first [rewrite Hd | rewrite Hv]; cbn [andb negb]); reflexivity.
Qed.

Lemma afterFallback_Ok (d : LinuxDistribution) a (r x : string) :
  afterFallback d a r = Ok x -> isSentinel x = false.
Proof.
  unfold afterFallback.
  match goal with
  | |- context [if ?c then Ok ?y else _] => destruct c eqn:E; set (z := y) in *
  end; [| discriminate].
  intros [= <-]. unfold isSentinel.
  apply andb_true_iff in E as [E1 E2].
  apply negb_true_iff in E1, E2. rewrite E1, E2. reflexivity.
Qed.

(** The loop over the ancestors leaves [unknown_distribution] when every
    ancestor misses both tables, and the first other result otherwise. *)
Lemma idLikeLoop_all_sentinel (ids : list string) (v r : string) :
  isSentinel r = true ->
  (forall id, In id ids -> isSentinel (getRuntimeIdHelper id v) = true) ->
  isSentinel (idLikeLoop ids v r) = true.
Proof.
  revert r. induction ids as [| id rest IH]; intros r Hr Hall; simpl.
  - exact Hr.
  - destruct (negb _) eqn:E.
    + apply Hall. left. reflexivity.
    + apply IH; [apply Hall; left; reflexivity |].
      intros id' Hin. apply Hall. right. exact Hin.
Qed.

Lemma afterFallback_all_sentinel (d : LinuxDistribution) a (r : string) :
  isSentinel r = true ->
  isSentinel (getRuntimeIdHelper (name d) (version d)) = true ->
  (forall id, In id (ancestors d) ->
              isSentinel (getRuntimeIdHelper id (version d)) = true) ->
  afterFallback d a r = unsupportedLinux (Some d) a.
Proof.
  intros Hr Hh Hall. unfold afterFallback.
  set (r1 := if (r =? unknown_distribution)%string then _ else r).
  assert (isSentinel r1 = true) as H1.
  { subst r1. destruct (r =? _)%string; assumption. }
  match goal with
  | |- (if (negb (?y =? _)%string && _)%bool then _ else _) = _ =>
      assert (isSentinel y = true) as H2
  end.
  { unfold ancestors in Hall. destruct (idLike d) as [ids |]; [| exact H1].
    destruct (_ && _)%bool; [| exact H1].
    apply idLikeLoop_all_sentinel; assumption. }
  apply isSentinel_true in H2 as [-> | ->]; reflexivity.
Qed.

End Linux.

(** ** Runtime-id resolution, all platforms *)

Section Resolution.

Import LinuxRuntimeId.

Lemma strictEq_true (a : option string) (s : string) :
  strictEq a s = true <-> a = Some s.
Proof.
  destruct a as [x |]; simpl.
  - rewrite String.eqb_eq. split; congruence.
  - split; discriminate.
Qed.

Lemma strictEq_false (a : option string) (s : string) :
  a <> Some s -> strictEq a s = false.
Proof.
  intros H. destruct (strictEq a s) eqn:E; [| reflexivity].
  apply strictEq_true in E. contradiction.
Qed.

(** Only the linux/x86_64 path looks at the fall back provider. *)
Lemma getRuntimeId_cases (p : string) (a : option string)
  (dist : option LinuxDistribution) fb :
  getRuntimeId p a dist fb =
  if ((p =? "linux")%string && strictEq a "x86_64")%bool then
    match dist with
    | Some d =>
        r <- applyFallback (getExactRuntimeId (name d) (version d)) fb ;;
        afterFallback d a r
    | None => Throw TypeError
    end
  else getRuntimeId p a dist None.
Proof.
  unfold getRuntimeId.
  destruct (p =? "win32")%string eqn:Ew.
  { apply String.eqb_eq in Ew. subst p. reflexivity. }
  destruct (p =? "darwin")%string eqn:Ed.
  { apply String.eqb_eq in Ed. subst p. reflexivity. }
  destruct (p =? "linux")%string eqn:El; [| reflexivity].
  cbn [andb]. destruct (strictEq a "x86_64") eqn:Ea; [| reflexivity].
  destruct dist; reflexivity.
Qed.

(** Whatever [getRuntimeId] returns has passed the check of line 250, or
    is one of the three fixed literals of windows and macOS. *)
Lemma getRuntimeId_Ok_not_sentinel (p : string) (a : option string)
  (dist : option LinuxDistribution) fb (r : string) :
  getRuntimeId p a dist fb = Ok r -> isSentinel r = false.
Proof.
  rewrite getRuntimeId_cases.
  destruct (_ && _)%bool.
  - destruct dist as [d |]; [| discriminate].
    destruct (applyFallback _ fb) as [r0 | e]; cbn [bind]; [| discriminate].
    apply afterFallback_Ok.
  - unfold getRuntimeId.
    destruct (p =? "win32")%string.
    { destruct (strictEq a "x86"); [intros [= <-]; reflexivity |].
      destruct (strictEq a "x86_64"); [intros [= <-]; reflexivity |].
      discriminate. }
    destruct (p =? "darwin")%string.
    { destruct (strictEq a "x86_64"); [intros [= <-]; reflexivity |].
      discriminate. }
    destruct (p =? "linux")%string; [| discriminate].
    destruct (strictEq a "x86_64").
    + destruct dist as [d |]; [| discriminate].
      change (afterFallback d a (getExactRuntimeId (name d) (version d))
              = Ok r -> isSentinel r = false).
      apply afterFallback_Ok.
    + destruct dist; discriminate.
Qed.

(** A provider that answers with the text [unknown_distribution] changes
    nothing: resolution goes on to the fuzzy and ancestor lookups as if no
    provider had been passed. *)
Lemma fallback_unknown_distribution_continues (p : string)
  (a : option string) (dist : option LinuxDistribution) :
  getRuntimeId p a dist (Some (mkFallback (Ok (Some unknown_distribution))))
  = getRuntimeId p a dist None.
Proof.
  rewrite (getRuntimeId_cases p a dist (Some _)).
  rewrite (getRuntimeId_cases p a dist None).
  destruct (_ && _)%bool; [| reflexivity].
  destruct dist as [d |]; [| reflexivity].
  destruct (isSentinel (getExactRuntimeId (name d) (version d))) eqn:E.
  - rewrite (applyFallback_adopt _ unknown_distribution) by
      (try exact E; try reflexivity; discriminate).
    cbn [applyFallback bind].
    apply isSentinel_true in E as [E | E]; [rewrite E; reflexivity |].
    assert (getExactRuntimeId (name d) (version d) <> unknown_distribution)
      as Hne by (rewrite E; discriminate).
    unfold afterFallback.
    rewrite String.eqb_refl, (getRuntimeIdHelper_exact _ _ Hne), E.
    reflexivity.
  - rewrite !applyFallback_real by exact E. reflexivity.
Qed.

Lemma newPlatformInformation_Ok (p : string) (a : option string)
  (dist : option LinuxDistribution) fb :
  newPlatformInformation p a dist fb
  = Ok (mkPlatformInformation p a dist
          match getRuntimeId p a dist fb with
          | Ok r => Some r
          | Throw _ => None
          end).
Proof.
  unfold newPlatformInformation.
  destruct (getRuntimeId p a dist fb); reflexivity.
Qed.

End Resolution.

(** ** Specified properties of runtime-id resolution *)

Section RuntimeIdClaims.

Import LinuxRuntimeId.

Ltac not_in_table :=
  let H := fresh in
  simpl; intros H;
  repeat (destruct H as [H | H]; [discriminate H |]); exact H.

(** C1, as stated, fails: GalliumOS 2.0 is mapped to Ubuntu 16.04 (lines
    345-348), not to Ubuntu 14.04. *)
Lemma C1_galliumos_is_not_ubuntu_14_04 :
  getRuntimeId "linux" (Some "x86_64")
    (Some (mkLinuxDistribution "galliumos" "2.0" None)) None
  = Ok "ubuntu.16.04-x64"
  /\ getRuntimeId "linux" (Some "x86_64")
       (Some (mkLinuxDistribution "galliumos" "2.0" None)) None
     <> Ok "ubuntu.14.04-x64".
Proof. split; [reflexivity | vm_compute; discriminate]. Qed.

(** C1 (amended): for linux with architecture x86_64 and a fall back
    provider that is absent or yields no value, the distribution
    (galliumos, 2.0, no idLike) resolves to "ubuntu.16.04-x64", and every
    distribution whose name is in neither table, with idLike = [ubuntu]
    and version 14.04, resolves to "ubuntu.14.04-x64". *)
Theorem C1_galliumos_and_ancestor_lookup :
  forall fb, silent fb ->
    getRuntimeId "linux" (Some "x86_64")
      (Some (mkLinuxDistribution "galliumos" "2.0" None)) fb
    = Ok "ubuntu.16.04-x64"
    /\ forall nm,
        ~ In nm exactTableNames -> ~ In nm fuzzyTableNames ->
        getRuntimeId "linux" (Some "x86_64")
          (Some (mkLinuxDistribution nm "14.04" (Some ["ubuntu"]))) fb
        = Ok "ubuntu.14.04-x64".
Proof.
  intros fb Hfb. split.
  - rewrite getRuntimeId_linux, (applyFallback_silent _ _ Hfb). reflexivity.
  - intros nm Hx Hf.
    assert (getRuntimeIdHelper nm "14.04" = unknown_distribution) as Hh
      by (apply getRuntimeIdHelper_unknown_distribution; tauto).
    rewrite getRuntimeId_linux, (applyFallback_silent _ _ Hfb).
    cbn [bind name version]. unfold afterFallback. cbn [name version idLike].
    rewrite (getRuntimeIdHelper_unknown_exact _ _ Hh), String.eqb_refl, Hh.
    reflexivity.
Qed.

Lemma C1_witness :
  silent None
  /\ ~ In "arch" exactTableNames
  /\ ~ In "arch" fuzzyTableNames
  /\ getRuntimeId "linux" (Some "x86_64")
       (Some (mkLinuxDistribution "arch" "14.04" (Some ["ubuntu"]))) None
     = Ok "ubuntu.14.04-x64".
Proof.
  split; [exact I |]. split; [not_in_table |]. split; [not_in_table |].
  apply (C1_galliumos_and_ancestor_lookup None I); not_in_table.
Defined.

(** C2, as stated, fails: a provider may answer with a non-empty string
    that is itself a sentinel, and line 250 then rejects it. *)
Lemma C2_sentinel_from_provider_is_not_returned :
  let d := mkLinuxDistribution "arch" "1" None in
  let provider := mkFallback (Ok (Some "unknown_version")) in
  (exists e, getRuntimeId "linux" (Some "x86_64") (Some d) None = Throw e)
  /\ getFallbackLinuxRuntimeId provider = Ok (Some "unknown_version")
  /\ "unknown_version" <> EmptyString
  /\ getRuntimeId "linux" (Some "x86_64") (Some d) (Some provider)
     = Throw (Error "Unsupported Linux distro: arch, 1, x86_64")
  /\ getRuntimeId "linux" (Some "x86_64") (Some d) (Some provider)
     <> Ok "unknown_version".
Proof.
  cbv zeta. split; [eexists; vm_compute; reflexivity |].
  split; [reflexivity |]. split; [discriminate |].
  split; [reflexivity | vm_compute; discriminate].
Qed.

(** C2 (amended): for every linux/x86_64 input on which resolution
    without a provider fails (the exact, fuzzy and ancestor lookups end in
    a sentinel), a provider that returns a non-empty string other than
    the two sentinels makes resolution return exactly that string; and
    when the exact lookup gives a real runtime id, that id is returned
    whatever the provider is, even one that would throw if called. *)
Theorem C2_fallback_adopted_in_place_of_sentinel :
  (forall (d : LinuxDistribution) (provider : ILinuxRuntimeIdFallback)
          (v : string),
      (exists e,
          getRuntimeId "linux" (Some "x86_64") (Some d) None = Throw e) ->
      getFallbackLinuxRuntimeId provider = Ok (Some v) ->
      v <> EmptyString ->
      isSentinel v = false ->
      getRuntimeId "linux" (Some "x86_64") (Some d) (Some provider) = Ok v)
  /\ (forall (d : LinuxDistribution) fb,
         isSentinel (getExactRuntimeId (name d) (version d)) = false ->
         getRuntimeId "linux" (Some "x86_64") (Some d) fb
         = Ok (getExactRuntimeId (name d) (version d))).
Proof.
  split.
  - intros d provider v [e He] Hp Hv Hs.
    destruct (isSentinel (getExactRuntimeId (name d) (version d))) eqn:E.
    + rewrite getRuntimeId_linux, (applyFallback_adopt _ v) by assumption.
      cbn [bind]. apply afterFallback_real. exact Hs.
    + rewrite getRuntimeId_linux, applyFallback_real in He by exact E.
      cbn [bind] in He. rewrite afterFallback_real in He by exact E.
      discriminate He.
  - intros d fb E.
    rewrite getRuntimeId_linux, applyFallback_real by exact E.
    cbn [bind]. apply afterFallback_real. exact E.
Qed.

Lemma C2_witness :
  getRuntimeId "linux" (Some "x86_64")
    (Some (mkLinuxDistribution "arch" "1" None))
    (Some (mkFallback (Ok (Some "ubuntu.16.04-x64"))))
  = Ok "ubuntu.16.04-x64"
  /\ getRuntimeId "linux" (Some "x86_64")
       (Some (mkLinuxDistribution "debian" "8" None))
       (Some (mkFallback (Throw TypeError)))
     = Ok "debian.8-x64".
Proof.
  split.
  - apply (proj1 C2_fallback_adopted_in_place_of_sentinel
             (mkLinuxDistribution "arch" "1" None)
             (mkFallback (Ok (Some "ubuntu.16.04-x64")))).
    + eexists. vm_compute. reflexivity.
    + reflexivity.
    + discriminate.
    + reflexivity.
  - apply (proj2 C2_fallback_adopted_in_place_of_sentinel
             (mkLinuxDistribution "debian" "8" None)).
    reflexivity.
Defined.

(** C3: for every linux/x86_64 input whose name resolves to a sentinel
    through the exact table, the fuzzy table and every idLike ancestor,
    with no fall back provider, the constructor succeeds with runtimeId
    absent and the platform, architecture and distribution it was given;
    and on every input a failure of runtime-id resolution leaves the
    constructor successful, with only runtimeId absent. *)
Theorem C3_unresolved_distribution_yields_absent_runtime_id :
  (forall d : LinuxDistribution,
      isSentinel (getExactRuntimeId (name d) (version d)) = true ->
      isSentinel (getRuntimeIdHelper (name d) (version d)) = true ->
      (forall id, In id (ancestors d) ->
                  isSentinel (getRuntimeIdHelper id (version d)) = true) ->
      newPlatformInformation "linux" (Some "x86_64") (Some d) None
      = Ok (mkPlatformInformation "linux" (Some "x86_64") (Some d) None))
  /\ (forall p a dist fb e,
         getRuntimeId p a dist fb = Throw e ->
         newPlatformInformation p a dist fb
         = Ok (mkPlatformInformation p a dist None)).
Proof.
  split.
  - intros d Hx Hh Hall.
    rewrite newPlatformInformation_Ok, getRuntimeId_linux.
    cbn [applyFallback bind].
    rewrite (afterFallback_all_sentinel d _ _ Hx Hh Hall). reflexivity.
  - intros p a dist fb e He.
    rewrite newPlatformInformation_Ok, He. reflexivity.
Qed.

Lemma C3_witness :
  newPlatformInformation "linux" (Some "x86_64")
    (Some (mkLinuxDistribution "arch" "1" (Some ["archlinux"; "fedora"])))
    None
  = Ok (mkPlatformInformation "linux" (Some "x86_64")
          (Some (mkLinuxDistribution "arch" "1"
                   (Some ["archlinux"; "fedora"])))
          None)
  /\ newPlatformInformation "linux" (Some "armv7l")
       (Some (mkLinuxDistribution "ubuntu" "16.04" None)) None
     = Ok (mkPlatformInformation "linux" (Some "armv7l")
             (Some (mkLinuxDistribution "ubuntu" "16.04" None)) None).
Proof.
  split.
  - apply (proj1 C3_unresolved_distribution_yields_absent_runtime_id
             (mkLinuxDistribution "arch" "1" (Some ["archlinux"; "fedora"]))).
    + reflexivity.
    + reflexivity.
    + simpl. intros id [<- | [<- | []]]; reflexivity.
  - apply (proj2 C3_unresolved_distribution_yields_absent_runtime_id
             "linux" (Some "armv7l")
             (Some (mkLinuxDistribution "ubuntu" "16.04" None)) None
             (Error "Unsupported Linux distro: ubuntu, 16.04, armv7l")).
    reflexivity.
Defined.

(** C7: on windows (platform win32) resolution returns "win7-x86" for
    architecture "x86", "win7-x64" for "x86_64", and throws the
    unsupported-architecture error for every other architecture; on
    macOS (platform darwin) it returns "osx.10.11-x64" for "x86_64" and
    throws for every other architecture. *)
Theorem C7_windows_and_macos :
  forall (a : option string) (dist : option LinuxDistribution) fb,
    getRuntimeId "win32" (Some "x86") dist fb = Ok "win7-x86"
    /\ getRuntimeId "win32" (Some "x86_64") dist fb = Ok "win7-x64"
    /\ (a <> Some "x86" -> a <> Some "x86_64" ->
        getRuntimeId "win32" a dist fb
        = Throw (Error ("Unsupported Windows architecture: " ++ toText a)))
    /\ getRuntimeId "darwin" (Some "x86_64") dist fb = Ok "osx.10.11-x64"
    /\ (a <> Some "x86_64" ->
        getRuntimeId "darwin" a dist fb
        = Throw (Error ("Unsupported macOS architecture: " ++ toText a))).
Proof.
  intros a dist fb. repeat split; try reflexivity.
  - intros H1 H2. unfold getRuntimeId. cbn [String.eqb Ascii.eqb Bool.eqb].
    rewrite (strictEq_false _ _ H1), (strictEq_false _ _ H2). reflexivity.
  - intros H. unfold getRuntimeId. cbn [String.eqb Ascii.eqb Bool.eqb].
    rewrite (strictEq_false _ _ H). reflexivity.
Qed.

Lemma C7_witness :
  getRuntimeId "win32" (Some "arm64") None None
  = Throw (Error "Unsupported Windows architecture: arm64")
  /\ getRuntimeId "darwin" None None None
     = Throw (Error "Unsupported macOS architecture: null").
Proof.
  split.
  - apply (proj1 (proj2 (proj2 (C7_windows_and_macos (Some "arm64") None None))));
      discriminate.
  - apply (proj2 (proj2 (proj2 (proj2 (C7_windows_and_macos None None None)))));
      discriminate.
Defined.

(** C8: for linux/x86_64, (ubuntu, 16.04) resolves to "ubuntu.16.04-x64"
    and (linuxmint, 18.1) resolves to the same runtime id, whatever the
    idLike lists and the fall back provider are. *)
Theorem C8_ubuntu_and_linuxmint :
  forall (ids ids' : option (list string)) fb fb',
    getRuntimeId "linux" (Some "x86_64")
      (Some (mkLinuxDistribution "ubuntu" "16.04" ids)) fb
    = Ok "ubuntu.16.04-x64"
    /\ getRuntimeId "linux" (Some "x86_64")
         (Some (mkLinuxDistribution "linuxmint" "18.1" ids')) fb'
       = getRuntimeId "linux" (Some "x86_64")
           (Some (mkLinuxDistribution "ubuntu" "16.04" ids)) fb.
Proof.
  intros ids ids' fb fb'.
  rewrite !getRuntimeId_linux. cbn [name version].
  rewrite !applyFallback_real by reflexivity. cbn [bind].
  rewrite !afterFallback_real by reflexivity. split; reflexivity.
Qed.

(** C9: whatever the platform, architecture, distribution and fall back
    provider, the runtimeId of the constructed value is never one of the
    two sentinel strings: it is absent, or it is the value
    [getRuntimeId] returned, which is not a sentinel; and a provider that
    answers "unknown_distribution" changes nothing, resolution goes on as
    without a provider. *)
Theorem C9_runtime_id_is_never_a_sentinel :
  forall (p : string) (a : option string) (dist : option LinuxDistribution),
    (forall fb info,
        newPlatformInformation p a dist fb = Ok info ->
        runtimeId info <> Some unknown_distribution
        /\ runtimeId info <> Some unknown_version
        /\ (runtimeId info = None
            \/ exists r, runtimeId info = Some r
                         /\ getRuntimeId p a dist fb = Ok r
                         /\ isSentinel r = false))
    /\ getRuntimeId p a dist
         (Some (mkFallback (Ok (Some unknown_distribution))))
       = getRuntimeId p a dist None.
Proof.
  intros p a dist. split; [| apply fallback_unknown_distribution_continues].
  intros fb info. rewrite newPlatformInformation_Ok. intros [= <-].
  cbn [runtimeId].
  destruct (getRuntimeId p a dist fb) as [r | e] eqn:E.
  - pose proof (getRuntimeId_Ok_not_sentinel _ _ _ _ _ E) as Hs.
    pose proof (proj1 (isSentinel_false r) Hs) as [Hd Hv].
    repeat split; try congruence.
    right. exists r. auto.
  - repeat split; try discriminate. left. reflexivity.
Qed.

Lemma C9_witness :
  let d := mkLinuxDistribution "fedora" "25" None in
  let fb := Some (mkFallback (Ok (Some "unknown_version"))) in
  let info :=
    mkPlatformInformation "linux" (Some "x86_64") (Some d) None in
  newPlatformInformation "linux" (Some "x86_64") (Some d) fb = Ok info
  /\ runtimeId info <> Some unknown_distribution
  /\ runtimeId info <> Some unknown_version.
Proof.
  cbv zeta. split; [reflexivity |].
  destruct (proj1 (C9_runtime_id_is_never_a_sentinel "linux" (Some "x86_64")
                     (Some (mkLinuxDistribution "fedora" "25" None)))
              (Some (mkFallback (Ok (Some "unknown_version"))))
              (mkPlatformInformation "linux" (Some "x86_64")
                 (Some (mkLinuxDistribution "fedora" "25" None)) None)
              eq_refl) as (H1 & H2 & _).
  split; assumption.
Defined.

(** C10: the constructor never throws.  For every platform string,
    architecture, distribution (absent or not) and fall back provider (a
    throwing one too) it returns a value that keeps the three arguments;
    every error of runtime-id resolution, the unsupported-platform error
    and the read of a property of a null distribution among them, leaves
    runtimeId absent. *)
Theorem C10_constructor_is_total :
  forall (p : string) (a : option string) (dist : option LinuxDistribution)
         fb,
    (exists rid,
        newPlatformInformation p a dist fb
        = Ok (mkPlatformInformation p a dist rid)
        /\ ((exists e, getRuntimeId p a dist fb = Throw e) <-> rid = None))
    /\ getRuntimeId "freebsd" a dist fb
       = Throw (Error "Unsupported platform freebsd")
    /\ getRuntimeId "linux" a None fb = Throw TypeError.
Proof.
  intros p a dist fb. split; [| split].
  - rewrite newPlatformInformation_Ok.
    destruct (getRuntimeId p a dist fb) as [r | e]; eexists;
      (split; [reflexivity |]).
    + split; [intros [e He]; discriminate He | discriminate].
    + split; [reflexivity | intros _; exists e; reflexivity].
  - reflexivity.
  - unfold getRuntimeId. cbn [String.eqb Ascii.eqb Bool.eqb].
    destruct (strictEq a "x86_64"); reflexivity.
Qed.

End RuntimeIdClaims.

(** ** Facts on the string primitives *)

Section StringFacts.

Import JsString.

Local Open Scope nat_scope.

Lemma length_app (s t : string) :
  String.length (s ++ t) = String.length s + String.length t.
Proof. induction s as [| c s IH]; simpl; [reflexivity | now rewrite IH]. Qed.

Lemma app_empty_r (s : string) : (s ++ EmptyString)%string = s.
Proof. induction s as [| c s IH]; simpl; [reflexivity | now rewrite IH]. Qed.

Lemma app_assoc (s t u : string) :
  ((s ++ t) ++ u)%string = (s ++ t ++ u)%string.
Proof. induction s as [| c s IH]; simpl; [reflexivity | now rewrite IH]. Qed.

Lemma substring_0_0 (t : string) : String.substring 0 0 t = EmptyString.
Proof. destruct t; reflexivity. Qed.

Lemma substring_0_app (m t : string) :
  String.substring 0 (String.length m) (m ++ t) = m.
Proof.
  induction m as [| c m IH]; simpl; [apply substring_0_0 | now rewrite IH].
Qed.

Lemma substring_skip (x t : string) (n : nat) :
  String.substring (String.length x) n (x ++ t) = String.substring 0 n t.
Proof. induction x as [| c x IH]; simpl; [reflexivity | exact IH]. Qed.

Lemma substring_0_all (t : string) :
  String.substring 0 (String.length t) t = t.
Proof.
  rewrite <- (app_empty_r t) at 2. apply substring_0_app.
Qed.

Lemma substring_split (s : string) (k : nat) :
  k <= String.length s ->
  s = (String.substring 0 k s
       ++ String.substring k (String.length s - k) s)%string.
Proof.
  revert k. induction s as [| c s IH]; intros k Hk; simpl in Hk.
  - assert (k = 0) as -> by lia. reflexivity.
  - destruct k as [| k].
    + cbn [String.substring append String.length Nat.sub].
      now rewrite substring_0_all.
    + cbn [String.substring append String.length Nat.sub].
      f_equal. apply IH. lia.
Qed.

Lemma prefix_app (p s : string) :
  prefix p s = true <-> exists r, s = (p ++ r)%string.
Proof.
  revert s. induction p as [| a p IH]; intros s.
  - destruct s; simpl; split; eauto.
  - destruct s as [| b s]; simpl.
    + split; [discriminate | intros [r Hr]; discriminate Hr].
    + destruct (ascii_dec a b) as [-> | ne].
      * rewrite IH. split; intros [r Hr]; exists r; congruence.
      * split; [discriminate | intros [r Hr]; congruence].
Qed.

Lemma endsWith_app (s p : string) :
  endsWith s p = true <-> exists x, s = (x ++ p)%string.
Proof.
  unfold endsWith. rewrite andb_true_iff, Nat.leb_le, String.eqb_eq. split.
  - intros [Hle Hs].
    exists (String.substring 0 (String.length s - String.length p) s).
    pose proof (substring_split s (String.length s - String.length p)) as H.
    replace (String.length s - (String.length s - String.length p))
      with (String.length p) in H by lia.
    rewrite Hs in H. apply H. lia.
  - intros [x ->]. rewrite length_app. split; [lia |].
    replace (String.length x + String.length p - String.length p)
      with (String.length x) by lia.
    rewrite substring_skip. apply substring_0_all.
Qed.

(** [split] loses nothing: joining the pieces with the separator gives
    the text back. *)

Lemma splitAux_nonempty (sep : string) (skip : nat) (cur s : string) :
  splitAux sep skip cur s <> [].
Proof.
  revert skip cur. induction s as [| c s IH]; intros skip cur; cbn [splitAux].
  - discriminate.
  - destruct skip; [| apply IH].
    destruct (prefix sep (String c s)); [discriminate | apply IH].
Qed.

Lemma concat_cons (sep x : string) (l : list string) :
  l <> [] -> String.concat sep (x :: l) = (x ++ sep ++ String.concat sep l)%string.
Proof. destruct l; [congruence | reflexivity]. Qed.

Lemma splitAux_concat (sep s : string) :
  sep <> EmptyString ->
  forall (skip : nat) (cur pre suf t : string),
    sep = (pre ++ suf)%string ->
    String.length suf = skip ->
    s = (suf ++ t)%string ->
    String.concat sep (splitAux sep skip cur s) = (cur ++ t)%string.
Proof.
  intros Hne.
  induction s as [| c s IH]; intros skip cur pre suf t Hsep Hlen Hs.
  - destruct suf; [| discriminate]. simpl in Hs. subst t. simpl.
    now rewrite app_empty_r.
  - destruct suf as [| a suf]; simpl in Hlen; subst skip;
      cbn [splitAux]; simpl in Hs.
    + subst t. destruct (prefix sep (String c s)) eqn:E.
      * apply prefix_app in E as [r Hr].
        rewrite concat_cons by apply splitAux_nonempty.
        destruct sep as [| b sep]; [congruence |]. simpl in Hr.
        injection Hr as -> ->. cbn [String.length Nat.sub].
        rewrite Nat.sub_0_r.
        rewrite (IH (String.length sep) EmptyString (String b EmptyString)
                    sep r); reflexivity.
      * rewrite (IH 0 (cur ++ String c EmptyString)%string pre EmptyString s);
          [now rewrite app_assoc | assumption | reflexivity | reflexivity].
    + injection Hs as -> ->.
      apply (IH (String.length suf) cur (pre ++ String a EmptyString)%string
                suf t); [| reflexivity | reflexivity].
      rewrite Hsep, app_assoc. reflexivity.
Qed.

Lemma split_concat (s sep : string) : String.concat sep (split s sep) = s.
Proof.
  unfold split. destruct (String.eqb_spec sep EmptyString) as [-> | ne].
  - induction s as [| c s IH]; [reflexivity |].
    cbn [list_ascii_of_string map].
    destruct s as [| c' s]; [reflexivity |].
    cbn [list_ascii_of_string map] in *.
    change (String c (String.concat EmptyString
                        (String c' EmptyString
                           :: map (fun c => String c EmptyString)
                                (list_ascii_of_string s)))
            = String c (String c' s)).
    now rewrite IH.
  - apply (splitAux_concat sep s ne 0 EmptyString sep EmptyString s);
      [now rewrite app_empty_r | reflexivity | reflexivity].
Qed.

(** Characters, positions and trimming *)

Lemma indexOf_lower (s t : string) : (-1 <= indexOf s t)%Z.
Proof.
  induction s as [| c s IH]; cbn [indexOf].
  - destruct (prefix t EmptyString); lia.
  - destruct (prefix t (String c s)); [lia |].
    destruct (indexOf s t <? 0)%Z eqn:E; [lia |].
    apply Z.ltb_ge in E. lia.
Qed.

Lemma indexOf_char (c : ascii) (s : string) :
  (0 <= indexOf s (String c EmptyString))%Z
  <-> In c (list_ascii_of_string s).
Proof.
  induction s as [| b s IH].
  - simpl. split; [lia | tauto].
  - cbn [indexOf prefix list_ascii_of_string In].
    destruct (ascii_dec c b) as [-> | ne].
    + assert (prefix EmptyString s = true) as -> by (destruct s; reflexivity).
      split; [intros _; left; reflexivity | lia].
    + destruct (indexOf s (String c EmptyString) <? 0)%Z eqn:E.
      * apply Z.ltb_lt in E. split; [lia |].
        intros [-> | Hin]; [congruence | apply IH in Hin; lia].
      * apply Z.ltb_ge in E. split; [intros _; right; apply IH; lia | lia].
Qed.

Lemma trimStart_In (c : ascii) (s : string) :
  isWhiteSpace c = false ->
  In c (list_ascii_of_string (trimStart s))
  <-> In c (list_ascii_of_string s).
Proof.
  intros Hc. induction s as [| b s IH]; simpl; [tauto |].
  destruct (isWhiteSpace b) eqn:Eb; [| simpl; tauto].
  rewrite IH. split; [tauto |]. intros [-> | H]; [congruence | exact H].
Qed.

Lemma trimEnd_In (c : ascii) (s : string) :
  isWhiteSpace c = false ->
  In c (list_ascii_of_string (trimEnd s))
  <-> In c (list_ascii_of_string s).
Proof.
  intros Hc. induction s as [| b s IH]; simpl; [tauto |].
  destruct (isWhiteSpace b) eqn:Eb; cbn [andb]; [| simpl; tauto].
  destruct (String.eqb_spec (trimEnd s) EmptyString) as [E | E];
    [| simpl; rewrite IH; tauto].
  rewrite E in IH. simpl in IH. simpl. split; [tauto |].
  intros [-> | H]; [congruence | tauto].
Qed.

Lemma hasEquals_trim (line : string) :
  hasEquals (trim line) = hasEquals line.
Proof.
  unfold hasEquals, trim.
  apply eq_true_iff_eq. rewrite !Z.leb_le, !indexOf_char.
  rewrite trimEnd_In, trimStart_In by reflexivity. tauto.
Qed.

End StringFacts.

(** ** The release-info parser *)

Section Parser.

Import JsString.

Lemma keyValue_hasEquals (line : string) :
  keyValue line
  = if hasEquals line then
      let t := trim line in
      let equalsIndex := indexOf t "=" in
      Some (substring t 0 equalsIndex,
            stripQuotes (substringFrom t (equalsIndex + 1)))
    else None.
Proof.
  unfold keyValue.
  change (0 <=? indexOf (trim line) "=") with (hasEquals (trim line)).
  rewrite hasEquals_trim. reflexivity.
Qed.

(** Lines without an equals sign leave the locals as they are. *)
Lemma scanLines_skip (line : string) (rest : list string) st :
  hasEquals line = false ->
  scanLines (line :: rest) st = scanLines rest st.
Proof.
  intros H. cbn [scanLines]. rewrite keyValue_hasEquals, H. reflexivity.
Qed.

Lemma scanLines_filter (lines : list string) st :
  scanLines lines st = scanLines (filter hasEquals lines) st.
Proof.
  revert st. induction lines as [| line rest IH]; intros st; [reflexivity |].
  cbn [filter]. destruct (hasEquals line) eqn:E.
  - cbn [scanLines]. destruct (keyValue line) as [[key value] |]; [| apply IH].
    destruct (allAssigned _); [reflexivity | apply IH].
  - rewrite scanLines_skip by exact E. apply IH.
Qed.

(** The scan is over once the three locals are assigned: from locals
    that are not all assigned, a prefix of the lines that assigns them
    all decides the result. *)
Lemma scanLines_break (pre post : list string) st :
  allAssigned st = false ->
  allAssigned (scanLines pre st) = true ->
  scanLines (pre ++ post) st = scanLines pre st.
Proof.
  revert st. induction pre as [| line rest IH]; intros st Hst Hpre.
  - simpl in Hpre. congruence.
  - cbn [app scanLines] in *.
    destruct (keyValue line) as [[key value] |]; [| apply IH; assumption].
    destruct (allAssigned (assignKey key value st)) eqn:E;
      [reflexivity | apply IH; assumption].
Qed.

Lemma quoted_iff (raw : string) :
  quoted raw <-> exists mid, raw = (dquote ++ mid ++ dquote)%string.
Proof.
  unfold quoted, startsWith. rewrite prefix_app, endsWith_app. split.
  - intros (Hlen & [r Hr] & [x Hx]).
    destruct x as [| c x].
    { rewrite Hx in Hlen. simpl in Hlen. lia. }
    exists x. rewrite Hx in Hr. simpl in Hr. injection Hr as -> <-.
    rewrite Hx. reflexivity.
  - intros [mid ->]. split; [| split].
    + rewrite !length_app. simpl. lia.
    + eexists. reflexivity.
    + exists (dquote ++ mid)%string. now rewrite app_assoc.
Qed.

Lemma stripQuotes_quoted (mid : string) :
  stripQuotes (dquote ++ mid ++ dquote) = mid.
Proof.
  assert (quoted (dquote ++ mid ++ dquote)) as (Hlen & Hs & He)
    by (apply quoted_iff; eauto).
  unfold stripQuotes. rewrite Hs, He.
  assert ((1 <? Z.of_nat (String.length (dquote ++ mid ++ dquote))) = true)
    as -> by (apply Z.ltb_lt; lia).
  cbn [andb]. unfold substring.
  assert (String.length (dquote ++ mid ++ dquote)
          = S (S (String.length mid))) as ->
      by (rewrite !length_app; simpl; lia).
  match goal with
  | |- String.substring ?a ?b _ = _ =>
      replace a with 1%nat by lia;
      replace b with (String.length mid) by lia
  end.
  simpl. apply substring_0_app.
Qed.

Lemma stripQuotes_unquoted (value : string) :
  ~ quoted value -> stripQuotes value = value.
Proof.
  intros H. unfold stripQuotes.
  destruct (_ && _)%bool eqn:E; [| reflexivity].
  exfalso. apply H. apply andb_true_iff in E as [E He].
  apply andb_true_iff in E as [Hl Hs]. apply Z.ltb_lt in Hl.
  unfold quoted. repeat split; [lia | assumption | assumption].
Qed.

End Parser.

(** ** Specified properties of the release-info parser *)

Section ParserClaims.

Import JsString.

(** C4: the parser returns a distribution on every input (it is a total
    function).  On "ID=ubuntu\nVERSION_ID=<quote>16.04<quote>\n" with
    separator "\n" it returns name "ubuntu", version "16.04" and no
    idLike; on the empty string, with any separator, it returns
    "unknown", "unknown" and no idLike; and on every input the lines
    without an equals sign are skipped: the result is that of the scan of
    the other lines alone. *)
Theorem C4_parser_is_total :
  FromReleaseInfo
    ("ID=ubuntu" ++ nl ++ "VERSION_ID=" ++ dquote ++ "16.04" ++ dquote ++ nl)
    nl
  = mkLinuxDistribution "ubuntu" "16.04" None
  /\ (forall eol : string,
         FromReleaseInfo EmptyString eol
         = mkLinuxDistribution "unknown" "unknown" None)
  /\ (forall releaseInfo eol : string,
         FromReleaseInfo releaseInfo eol
         = scanLines (filter hasEquals (split releaseInfo eol))
             initialLocals).
Proof.
  split; [reflexivity |]. split.
  - intros eol. unfold FromReleaseInfo, split.
    destruct (eol =? EmptyString)%string; reflexivity.
  - intros releaseInfo eol. apply scanLines_filter.
Qed.

(** C5: for every line that is parsed into a key and a value, the value
    is the text after the first equals sign with exactly one double quote
    removed from each end if and only if that text is longer than one
    character and both starts and ends with a double quote; otherwise it
    is that text unchanged.  What is between the quotes is kept as it is,
    and a value that is a single double quote is returned unchanged. *)
Theorem C5_quote_stripping :
  (forall line key value : string,
      keyValue line = Some (key, value) ->
      let raw :=
        substringFrom (trim line) (indexOf (trim line) "=" + 1) in
      (raw = (dquote ++ value ++ dquote)%string <-> quoted raw)
      /\ (~ quoted raw -> value = raw))
  /\ (forall mid : string, stripQuotes (dquote ++ mid ++ dquote) = mid)
  /\ stripQuotes dquote = dquote.
Proof.
  split; [| split; [apply stripQuotes_quoted | reflexivity]].
  intros line key value H raw.
  unfold keyValue in H.
  destruct (0 <=? indexOf (trim line) "="); [| discriminate].
  injection H as _ Hv. fold raw in Hv. split; [split |].
  - intros E. apply quoted_iff. eauto.
  - intros Hq. apply quoted_iff in Hq as [mid Hmid].
    rewrite Hmid in Hv. rewrite stripQuotes_quoted in Hv. congruence.
  - intros Hn. rewrite <- Hv. apply stripQuotes_unquoted. exact Hn.
Qed.

Lemma C5_witness :
  let line := ("VERSION_ID=" ++ dquote ++ "16.04" ++ dquote)%string in
  let raw := (dquote ++ "16.04" ++ dquote)%string in
  keyValue line = Some ("VERSION_ID", "16.04")
  /\ (raw = (dquote ++ "16.04" ++ dquote)%string <-> quoted raw)
  /\ (~ quoted raw -> "16.04" = raw).
Proof.
  cbv zeta. split; [reflexivity |].
  apply (proj1 C5_quote_stripping
           ("VERSION_ID=" ++ dquote ++ "16.04" ++ dquote)%string
           "VERSION_ID" "16.04").
  reflexivity.
Defined.

(** C6: the scan stops as soon as name and version differ from "unknown"
    and the ID_LIKE key has been seen.  For every input whose lines are
    [pre ++ post] where the scan of [pre] leaves all three assigned, the
    result is that of [pre]: the lines of [post], duplicate ID,
    VERSION_ID and ID_LIKE keys among them, have no effect, and any other
    input that starts with the same lines gives the same result. *)
Theorem C6_early_exit :
  forall (releaseInfo eol : string) (pre post : list string),
    split releaseInfo eol = (pre ++ post)%list ->
    allAssigned (scanLines pre initialLocals) = true ->
    FromReleaseInfo releaseInfo eol = scanLines pre initialLocals
    /\ forall (other : string) (post' : list string),
        split other eol = (pre ++ post')%list ->
        FromReleaseInfo other eol = FromReleaseInfo releaseInfo eol.
Proof.
  intros releaseInfo eol pre post Hsplit Hall.
  assert (forall text rest, split text eol = (pre ++ rest)%list ->
            FromReleaseInfo text eol = scanLines pre initialLocals) as Hpre.
  { intros text rest Ht. unfold FromReleaseInfo. rewrite Ht.
    apply scanLines_break; [reflexivity | exact Hall]. }
  split; [apply (Hpre _ _ Hsplit) |].
  intros other post' Ho.
  rewrite (Hpre _ _ Ho), (Hpre _ _ Hsplit). reflexivity.
Qed.

Lemma C6_witness :
  let pre := ["ID=arch"; "VERSION_ID=1"; "ID_LIKE=archlinux"] in
  let post := ["ID=ubuntu"; "VERSION_ID=16.04"; "ID_LIKE=debian"] in
  let releaseInfo :=
    ("ID=arch" ++ nl ++ "VERSION_ID=1" ++ nl ++ "ID_LIKE=archlinux" ++ nl
     ++ "ID=ubuntu" ++ nl ++ "VERSION_ID=16.04" ++ nl ++ "ID_LIKE=debian")%string in
  split releaseInfo nl = (pre ++ post)%list
  /\ allAssigned (scanLines pre initialLocals) = true
  /\ FromReleaseInfo releaseInfo nl
     = mkLinuxDistribution "arch" "1" (Some ["archlinux"]).
Proof.
  cbv zeta. split; [reflexivity |]. split; [reflexivity |].
  apply (C6_early_exit
           ("ID=arch" ++ nl ++ "VERSION_ID=1" ++ nl ++ "ID_LIKE=archlinux"
            ++ nl ++ "ID=ubuntu" ++ nl ++ "VERSION_ID=16.04" ++ nl
            ++ "ID_LIKE=debian")%string
           nl
           ["ID=arch"; "VERSION_ID=1"; "ID_LIKE=archlinux"]
           ["ID=ubuntu"; "VERSION_ID=16.04"; "ID_LIKE=debian"]);
    reflexivity.
Defined.

End ParserClaims.


(** * Further properties of the code *)

(** ** The release-info parser: what the scan keeps and ignores *)

Section ParserScan.

Import JsString.

Lemma split_nonempty (s sep : string) :
  sep <> EmptyString -> split s sep <> [].
Proof.
  intros H. unfold split. apply String.eqb_neq in H. rewrite H.
  apply splitAux_nonempty.
Qed.

Lemma assignKey_cases (key value : string) st :
  (key = "ID" /\ assignKey key value st
                 = mkLinuxDistribution value (version st) (idLike st))
  \/ (key = "VERSION_ID"
      /\ assignKey key value st
         = mkLinuxDistribution (name st) value (idLike st))
  \/ (key = "ID_LIKE"
      /\ assignKey key value st
         = mkLinuxDistribution (name st) (version st)
             (Some (split value " ")))
  \/ (((key =? "ID") || (key =? "VERSION_ID") || (key =? "ID_LIKE"))%string%bool
      = false
      /\ assignKey key value st = st).
Proof.
  unfold assignKey.
  destruct (String.eqb_spec key "ID") as [-> | n1]; [left; auto |].
  destruct (String.eqb_spec key "VERSION_ID") as [-> | n2];
    [right; left; auto |].
  destruct (String.eqb_spec key "ID_LIKE") as [-> | n3];
    [right; right; left; auto |].
  right; right; right; auto.
Qed.

(** An invariant of the locals carries over to the result of the scan when
    every assignment keeps it. *)
Lemma scanLines_invariant (P : LinuxDistribution -> Prop) :
  (forall key value st, P st -> P (assignKey key value st)) ->
  forall lines st, P st -> P (scanLines lines st).
Proof.
  intros Hstep. induction lines as [| line rest IH]; intros st Hst;
    cbn [scanLines]; [exact Hst |].
  destruct (keyValue line) as [[key value] |]; [| apply IH; exact Hst].
  destruct (allAssigned _); [| apply IH]; apply Hstep; exact Hst.
Qed.

Lemma scanLines_prefix (lines : list string) st :
  exists pre post,
    lines = (pre ++ post)%list
    /\ scanLines lines st = applyLines pre st
    /\ (allAssigned (scanLines lines st) = false -> post = []).
Proof.
  revert st. induction lines as [| line rest IH]; intros st.
  - exists [], []. repeat split.
  - cbn [scanLines].
    destruct (keyValue line) as [[key value] |] eqn:E.
    + destruct (allAssigned (assignKey key value st)) eqn:Ea.
      * exists [line], rest. repeat split.
        -- unfold applyLines. simpl. rewrite E. reflexivity.
        -- congruence.
      * destruct (IH (assignKey key value st)) as (pre & post & -> & Hs & Hp).
        exists (line :: pre), post. repeat split; [| exact Hp].
        rewrite Hs. unfold applyLines. simpl. rewrite E. reflexivity.
    + destruct (IH st) as (pre & post & -> & Hs & Hp).
      exists (line :: pre), post. repeat split; [| exact Hp].
      rewrite Hs. unfold applyLines. simpl. rewrite E. reflexivity.
Qed.

Lemma scanLines_recognised (lines : list string) st :
  allAssigned st = false ->
  scanLines lines st = scanLines (filter recognisedLine lines) st.
Proof.
  revert st. induction lines as [| line rest IH]; intros st Hst;
    [reflexivity |].
  cbn [filter]. unfold recognisedLine at 1. cbn [scanLines].
  destruct (keyValue line) as [[key value] |] eqn:E; [| apply IH; exact Hst].
  destruct (assignKey_cases key value st)
    as [[-> Ha] | [[-> Ha] | [[-> Ha] | [Hk Ha]]]];
    try (cbn [String.eqb Ascii.eqb Bool.eqb orb]; cbn [scanLines];
         rewrite E; destruct (allAssigned (assignKey _ value st)) eqn:Ea;
         [reflexivity | apply IH; exact Ea]).
  rewrite Hk, Ha, Hst. apply IH. exact Hst.
Qed.

(** X1: the idLike of a parsed distribution is absent or a non-empty list:
    [value.split(" ")] yields at least one piece, so an [ID_LIKE=] line
    with nothing after the equals sign gives the list of one empty string,
    never the empty list. *)
Theorem X1_parsed_idLike_is_never_empty :
  forall releaseInfo eol : string,
    idLike (FromReleaseInfo releaseInfo eol) <> Some []
    /\ FromReleaseInfo "ID_LIKE=" nl
       = mkLinuxDistribution unknown unknown (Some [EmptyString]).
Proof.
  intros releaseInfo eol. split; [| reflexivity].
  unfold FromReleaseInfo.
  apply (scanLines_invariant (fun st => idLike st <> Some [])).
  - intros key value st Hst.
    destruct (assignKey_cases key value st)
      as [[_ ->] | [[_ ->] | [[_ ->] | [_ ->]]]]; cbn [idLike]; try exact Hst.
    intros [= H]. revert H. apply split_nonempty. discriminate.
  - discriminate.
Qed.

End ParserScan.

Section ParserFields.

Import JsString.

Lemma scanLines_invariant_In (all : list string)
  (P : LinuxDistribution -> Prop) :
  (forall line key value st,
      In line all -> keyValue line = Some (key, value) ->
      P st -> P (assignKey key value st)) ->
  forall lines st, incl lines all -> P st -> P (scanLines lines st).
Proof.
  intros Hstep. induction lines as [| line rest IH]; intros st Hin Hst;
    cbn [scanLines]; [exact Hst |].
  assert (incl rest all) as Hrest by (intros x Hx; apply Hin; right; exact Hx).
  destruct (keyValue line) as [[key value] |] eqn:E; [| apply IH; assumption].
  assert (P (assignKey key value st)) as Hp
      by (apply (Hstep line); [apply Hin; left; reflexivity | exact E | exact Hst]).
  destruct (allAssigned _); [exact Hp | apply IH; assumption].
Qed.

Lemma applyLines_app (l1 l2 : list string) st :
  applyLines (l1 ++ l2)%list st = applyLines l2 (applyLines l1 st).
Proof. unfold applyLines. apply fold_left_app. Qed.

Lemma applyLines_cons (line : string) (rest : list string) st :
  applyLines (line :: rest) st
  = applyLines rest
      match keyValue line with
      | Some (key, value) => assignKey key value st
      | None => st
      end.
Proof. reflexivity. Qed.

Lemma applyLines_keeps_name (lines : list string) st :
  (forall l v, In l lines -> keyValue l <> Some ("ID", v)) ->
  name (applyLines lines st) = name st.
Proof.
  revert st. induction lines as [| line rest IH]; intros st H; [reflexivity |].
  rewrite applyLines_cons.
  rewrite IH by (intros l v Hl; apply H; right; exact Hl).
  destruct (keyValue line) as [[key value] |] eqn:E; [| reflexivity].
  destruct (assignKey_cases key value st)
    as [[-> _] | [[_ ->] | [[_ ->] | [_ ->]]]]; try reflexivity.
  exfalso. apply (H line value); [left; reflexivity | exact E].
Qed.

(** X2: lines whose key is none of ID, VERSION_ID and ID_LIKE (PRETTY_NAME,
    HOME_URL, ...) change nothing: the result is that of the scan of the
    lines with a recognised key alone. *)
Theorem X2_unrecognised_keys_are_ignored :
  forall releaseInfo eol : string,
    FromReleaseInfo releaseInfo eol
    = scanLines (filter recognisedLine (split releaseInfo eol)) initialLocals.
Proof.
  intros releaseInfo eol. unfold FromReleaseInfo.
  apply scanLines_recognised. reflexivity.
Qed.

(** X3: the result is always what plainly assigning the lines of some
    prefix of the input, in order, gives; and when the result lacks one of
    name, version and idLike, that prefix is the whole input (the loop ran
    to its end). *)
Theorem X3_result_is_the_assignment_of_a_prefix :
  forall releaseInfo eol : string,
  exists pre post : list string,
    split releaseInfo eol = (pre ++ post)%list
    /\ FromReleaseInfo releaseInfo eol = applyLines pre initialLocals
    /\ (allAssigned (FromReleaseInfo releaseInfo eol) = false -> post = []).
Proof.
  intros releaseInfo eol. unfold FromReleaseInfo.
  destruct (scanLines_prefix (split releaseInfo eol) initialLocals)
    as (pre & post & H1 & H2 & H3).
  exists pre, post. auto.
Qed.

(** X4: among duplicate ID lines the last one wins as long as the scan is
    not cut short: when the result lacks one of the three fields, its name
    is the value of the last line with key ID. *)
Theorem X4_last_ID_line_wins_without_early_exit :
  forall (releaseInfo eol : string) (pre post : list string)
         (line value : string),
    split releaseInfo eol = (pre ++ line :: post)%list ->
    keyValue line = Some ("ID", value) ->
    (forall l v, In l post -> keyValue l <> Some ("ID", v)) ->
    allAssigned (FromReleaseInfo releaseInfo eol) = false ->
    name (FromReleaseInfo releaseInfo eol) = value.
Proof.
  intros releaseInfo eol pre post line value Hsplit Hline Hpost Hall.
  unfold FromReleaseInfo in *.
  destruct (scanLines_prefix (split releaseInfo eol) initialLocals)
    as (pre' & post' & H1 & H2 & H3).
  rewrite (H3 Hall), app_nil_r in H1. subst pre'.
  rewrite H2, Hsplit, applyLines_app, applyLines_cons, Hline.
  rewrite applyLines_keeps_name by exact Hpost. reflexivity.
Qed.

Lemma X4_witness :
  let releaseInfo := ("ID=arch" ++ nl ++ "NAME=x" ++ nl ++ "ID=manjaro")%string in
  split releaseInfo nl = (["ID=arch"; "NAME=x"] ++ "ID=manjaro" :: [])%list
  /\ keyValue "ID=manjaro" = Some ("ID", "manjaro")
  /\ allAssigned (FromReleaseInfo releaseInfo nl) = false
  /\ name (FromReleaseInfo releaseInfo nl) = "manjaro".
Proof.
  cbv zeta. split; [reflexivity |]. split; [reflexivity |].
  split; [reflexivity |].
  apply (X4_last_ID_line_wins_without_early_exit
           ("ID=arch" ++ nl ++ "NAME=x" ++ nl ++ "ID=manjaro")%string nl
           ["ID=arch"; "NAME=x"] [] "ID=manjaro" "manjaro").
  - reflexivity.
  - reflexivity.
  - intros l v [].
  - reflexivity.
Defined.

(** X5: the parser invents nothing.  The name of the result is "unknown"
    or the value of a line of the input with key ID; likewise the version
    and VERSION_ID; and idLike is absent or the pieces, cut at single
    spaces, of the value of a line with key ID_LIKE.  So a text without an
    ID line gives the name "unknown", and so on. *)
Theorem X5_fields_come_from_the_lines :
  forall releaseInfo eol : string,
    let d := FromReleaseInfo releaseInfo eol in
    let lines := split releaseInfo eol in
    (name d = unknown
     \/ exists line, In line lines /\ keyValue line = Some ("ID", name d))
    /\ (version d = unknown
        \/ exists line,
            In line lines /\ keyValue line = Some ("VERSION_ID", version d))
    /\ (idLike d = None
        \/ exists line value,
            In line lines /\ keyValue line = Some ("ID_LIKE", value)
            /\ idLike d = Some (split value " ")).
Proof.
  intros releaseInfo eol d lines. subst d. unfold FromReleaseInfo. fold lines.
  apply (scanLines_invariant_In lines
           (fun st =>
              (name st = unknown
               \/ exists line,
                   In line lines /\ keyValue line = Some ("ID", name st))
              /\ (version st = unknown
                  \/ exists line,
                      In line lines
                      /\ keyValue line = Some ("VERSION_ID", version st))
              /\ (idLike st = None
                  \/ exists line value,
                      In line lines /\ keyValue line = Some ("ID_LIKE", value)
                      /\ idLike st = Some (split value " ")))).
  - intros line key value st Hin Hkv (Hn & Hv & Hi).
    destruct (assignKey_cases key value st)
      as [[-> ->] | [[-> ->] | [[-> ->] | [_ ->]]]];
      cbn [name version idLike]; repeat split; auto.
    + right. exists line. auto.
    + right. exists line. auto.
    + right. exists line, value. auto.
  - apply incl_refl.
  - cbn. auto.
Qed.

End ParserFields.

(** ** The release-info parser: one line *)

Section ParserLine.

Import JsString.

Lemma trimStart_padding (w s : string) :
  allWhiteSpace w = true -> trimStart (w ++ s) = trimStart s.
Proof.
  unfold allWhiteSpace. induction w as [| c w IH]; simpl; [reflexivity |].
  intros H. apply andb_true_iff in H as [Hc Hw]. rewrite Hc. apply IH, Hw.
Qed.

Lemma trimEnd_all_white (w : string) :
  allWhiteSpace w = true -> trimEnd w = EmptyString.
Proof.
  unfold allWhiteSpace. induction w as [| c w IH]; simpl; [reflexivity |].
  intros H. apply andb_true_iff in H as [Hc Hw].
  rewrite (IH Hw), Hc. reflexivity.
Qed.

Lemma trimEnd_padding (s w : string) :
  allWhiteSpace w = true -> trimEnd (s ++ w) = trimEnd s.
Proof.
  intros H. induction s as [| c s IH]; simpl.
  - apply trimEnd_all_white, H.
  - rewrite IH. reflexivity.
Qed.

Lemma trim_padding_end (s w : string) :
  allWhiteSpace w = true -> trim (s ++ w) = trim s.
Proof.
  intros H. unfold trim. induction s as [| c s IH].
  - pose proof (trimStart_padding w EmptyString H) as Hw.
    rewrite app_empty_r in Hw. cbn [append]. rewrite Hw. reflexivity.
  - cbn [append trimStart]. destruct (isWhiteSpace c); [exact IH |].
    apply (trimEnd_padding (String c s) w H).
Qed.

Lemma trim_padding (w1 s w2 : string) :
  allWhiteSpace w1 = true -> allWhiteSpace w2 = true ->
  trim (w1 ++ s ++ w2) = trim s.
Proof.
  intros H1 H2. rewrite <- (trim_padding_end s w2 H2).
  unfold trim. rewrite trimStart_padding by exact H1. reflexivity.
Qed.

Lemma keyValue_trim (a b : string) : trim a = trim b -> keyValue a = keyValue b.
Proof. intros H. unfold keyValue. rewrite H. reflexivity. Qed.

Lemma scanLines_same_pairs (lines lines' : list string) st :
  Forall2 (fun l l' => keyValue l' = keyValue l) lines lines' ->
  scanLines lines' st = scanLines lines st.
Proof.
  intros H. revert st. induction H as [| l l' ls ls' Hl _ IH]; intros st;
    [reflexivity |].
  cbn [scanLines]. rewrite Hl.
  destruct (keyValue l) as [[key value] |]; [| apply IH].
  destruct (allAssigned _); [reflexivity | apply IH].
Qed.

Lemma indexOf_after_key (key rest : string) :
  hasEquals key = false ->
  indexOf (key ++ String "=" rest) "=" = Z.of_nat (String.length key).
Proof.
  unfold hasEquals. induction key as [| c key IH]; intros H.
  - cbn [append indexOf prefix].
    destruct (ascii_dec "=" "=") as [_ | ne]; [| congruence].
    destruct rest; reflexivity.
  - cbn [indexOf prefix] in H. cbn [append indexOf prefix String.length].
    destruct (ascii_dec "=" c) as [e | ne].
    + assert (prefix EmptyString key = true) as E by (destruct key; reflexivity).
      rewrite E in H. discriminate H.
    + assert (indexOf key "=" < 0) as Hneg.
      { destruct (indexOf key "=" <? 0) eqn:E; [apply Z.ltb_lt; exact E |].
        apply Z.ltb_ge in E. apply Z.leb_gt in H. lia. }
      rewrite IH by (apply Z.leb_gt; exact Hneg).
      destruct (Z.of_nat (String.length key) <? 0) eqn:E2; [| lia].
      apply Z.ltb_lt in E2. lia.
Qed.

Lemma substring_key (key rest : string) :
  substring (key ++ rest) 0 (Z.of_nat (String.length key)) = key.
Proof.
  unfold substring. rewrite length_app.
  match goal with
  | |- String.substring ?a ?b _ = _ =>
      replace a with 0%nat by lia;
      replace b with (String.length key) by lia
  end.
  apply substring_0_app.
Qed.

Lemma substringFrom_rest (key rest : string) :
  substringFrom (key ++ rest) (Z.of_nat (String.length key)) = rest.
Proof.
  unfold substringFrom, substring. rewrite length_app.
  match goal with
  | |- String.substring ?a ?b _ = _ =>
      replace a with (String.length key) by lia;
      replace b with (String.length rest) by lia
  end.
  rewrite substring_skip. apply substring_0_all.
Qed.

(** X6: white space before and after a line does not matter (so a file
    with CR LF line ends read with the separator LF parses as the same
    file with LF line ends): lines that differ only by such padding give
    the same result. *)
Theorem X6_padding_of_lines_is_ignored :
  forall (lines lines' : list string) (st : LinuxDistribution),
    Forall2 paddingOf lines lines' ->
    scanLines lines' st = scanLines lines st.
Proof.
  intros lines lines' st H. apply scanLines_same_pairs.
  induction H as [| l l' ls ls' (w1 & w2 & H1 & H2 & ->) _ IH];
    constructor; [| exact IH].
  apply keyValue_trim, trim_padding; assumption.
Qed.

Lemma X6_witness :
  let cr := String (ascii_of_nat 13) EmptyString in
  Forall2 paddingOf ["ID=arch"; "VERSION_ID=1"]
    [("ID=arch" ++ cr)%string; ("  VERSION_ID=1" ++ cr)%string]
  /\ FromReleaseInfo ("ID=arch" ++ crlf ++ "  VERSION_ID=1" ++ cr) nl
     = FromReleaseInfo ("ID=arch" ++ nl ++ "VERSION_ID=1") nl.
Proof.
  cbv zeta.
  assert (Forall2 paddingOf ["ID=arch"; "VERSION_ID=1"]
            [("ID=arch" ++ String (ascii_of_nat 13) EmptyString)%string;
             ("  VERSION_ID=1" ++ String (ascii_of_nat 13) EmptyString)%string])
    as H.
  { constructor; [| constructor; [| constructor]].
    - exists EmptyString, (String (ascii_of_nat 13) EmptyString).
      repeat split; reflexivity.
    - exists "  "%string, (String (ascii_of_nat 13) EmptyString).
      repeat split; reflexivity. }
  split; [exact H |].
  exact (X6_padding_of_lines_is_ignored _ _ initialLocals H).
Defined.

(** X7: a line is cut at its first equals sign, so a value may hold equals
    signs: for a key without an equals sign and a line free of white space
    at both ends, [key=value] is parsed into that key and that value, with
    its quotes stripped. *)
Theorem X7_line_is_cut_at_the_first_equals_sign :
  forall key value : string,
    hasEquals key = false ->
    trim (key ++ "=" ++ value) = (key ++ "=" ++ value)%string ->
    keyValue (key ++ "=" ++ value) = Some (key, stripQuotes value).
Proof.
  intros key value Hk Ht. unfold keyValue. rewrite Ht.
  change (key ++ "=" ++ value)%string with (key ++ String "=" value)%string.
  rewrite (indexOf_after_key key value Hk).
  change (key ++ String "=" value)%string with (key ++ "=" ++ value)%string.
  assert ((0 <=? Z.of_nat (String.length key)) = true) as ->
      by (apply Z.leb_le; lia).
  rewrite substring_key.
  replace (Z.of_nat (String.length key) + 1)
    with (Z.of_nat (String.length (key ++ "="))) by (rewrite length_app; simpl; lia).
  replace (key ++ "=" ++ value)%string with ((key ++ "=") ++ value)%string
    by apply app_assoc.
  rewrite substringFrom_rest. reflexivity.
Qed.

Lemma X7_witness :
  keyValue "BUG_REPORT_URL=https://bugs.example/?os=arch"
  = Some ("BUG_REPORT_URL", "https://bugs.example/?os=arch").
Proof.
  apply (X7_line_is_cut_at_the_first_equals_sign
           "BUG_REPORT_URL" "https://bugs.example/?os=arch");
    reflexivity.
Defined.

End ParserLine.

(** ** Runtime-id resolution: what can come out *)

Section RuntimeIdRange.

Import LinuxRuntimeId.

Ltac in_list := repeat (first [left; reflexivity | right]).

Ltac split_eqb :=
  repeat match goal with
    | |- context [(?a =? ?b)%string] => destruct (a =? b)%string
    | |- context [JsString.startsWith ?a ?b] =>
        destruct (JsString.startsWith a b)
    end.

Lemma getExactRuntimeId_range (n v : string) :
  In (getExactRuntimeId n v) linuxRuntimeIds
  \/ isSentinel (getExactRuntimeId n v) = true.
Proof.
  unfold getExactRuntimeId. split_eqb; cbn [orb];
    first [right; reflexivity | left; unfold linuxRuntimeIds; in_list].
Qed.

Lemma getRuntimeIdHelper_range (n v : string) :
  In (getRuntimeIdHelper n v) linuxRuntimeIds
  \/ isSentinel (getRuntimeIdHelper n v) = true.
Proof.
  unfold getRuntimeIdHelper.
  destruct (negb _); [apply getExactRuntimeId_range |].
  split_eqb; cbn [orb];
    first [right; reflexivity | left; unfold linuxRuntimeIds; in_list].
Qed.

Lemma idLikeLoop_range (ids : list string) (v r : string) :
  idLikeLoop ids v r = r
  \/ In (idLikeLoop ids v r) linuxRuntimeIds
  \/ isSentinel (idLikeLoop ids v r) = true.
Proof.
  revert r. induction ids as [| id rest IH]; intros r; [left; reflexivity |].
  cbn [idLikeLoop]. right.
  destruct (negb _); [apply getRuntimeIdHelper_range |].
  destruct (IH (getRuntimeIdHelper id v)) as [-> | H]; [| exact H].
  apply getRuntimeIdHelper_range.
Qed.

Lemma afterFallback_range (d : LinuxDistribution) a (r0 r : string) :
  afterFallback d a r0 = Ok r -> r = r0 \/ In r linuxRuntimeIds.
Proof.
  intros H. pose proof (afterFallback_Ok _ _ _ _ H) as Hs.
  revert H. unfold afterFallback.
  set (r1 := if (r0 =? unknown_distribution)%string then _ else r0).
  assert (r1 = r0 \/ In r1 linuxRuntimeIds \/ isSentinel r1 = true) as H1.
  { subst r1. destruct (r0 =? _)%string; [right | left; reflexivity].
    apply getRuntimeIdHelper_range. }
  match goal with
  | |- (if _ then Ok ?y else _) = _ -> _ => set (r2 := y)
  end.
  assert (r2 = r0 \/ In r2 linuxRuntimeIds \/ isSentinel r2 = true) as H2.
  { subst r2. destruct (idLike d) as [ids |]; [| exact H1].
    destruct (_ && _)%bool; [| exact H1].
    destruct (idLikeLoop_range ids (version d) r1) as [-> | H]; auto. }
  destruct (_ && _)%bool; [| discriminate].
  intros [= <-]. destruct H2 as [H2 | [H2 | H2]]; auto. congruence.
Qed.

Lemma applyFallback_Ok (r0 r1 : string) fb :
  applyFallback r0 fb = Ok r1 ->
  r1 = r0
  \/ exists provider,
      fb = Some provider /\ getFallbackLinuxRuntimeId provider = Ok (Some r1).
Proof.
  unfold applyFallback. destruct fb as [provider |]; [| intros [= <-]; auto].
  destruct (_ || _)%bool; [| intros [= <-]; auto].
  destruct (getFallbackLinuxRuntimeId provider) as [v | e] eqn:E;
    cbn [bind]; [| discriminate].
  destruct (truthy v) as [x |] eqn:Et; intros [= <-]; [| auto].
  right. exists provider. split; [reflexivity |].
  destruct v as [[| c s] |]; simpl in Et; try discriminate.
  injection Et as <-. exact E.
Qed.

(** X8: the runtime ids are a closed set.  Whatever [getRuntimeId] returns
    is one of thirteen literals (two for windows, one for macOS, ten for
    linux), or is the very string the fall back provider gave. *)
Theorem X8_runtime_ids_are_a_closed_set :
  forall (p : string) (a : option string) (dist : option LinuxDistribution)
         fb (r : string),
    getRuntimeId p a dist fb = Ok r ->
    In r supportedRuntimeIds
    \/ exists provider,
        fb = Some provider
        /\ getFallbackLinuxRuntimeId provider = Ok (Some r).
Proof.
  intros p a dist fb r. rewrite getRuntimeId_cases.
  destruct (_ && _)%bool.
  - destruct dist as [d |]; [| discriminate].
    destruct (applyFallback _ fb) as [r1 | e] eqn:Ef; cbn [bind];
      [| discriminate].
    intros H. pose proof (afterFallback_Ok _ _ _ _ H) as Hs.
    apply afterFallback_range in H as [-> | H].
    + apply applyFallback_Ok in Ef as [-> | Hp]; [| right; exact Hp].
      left. destruct (getExactRuntimeId_range (name d) (version d)) as [Hin | Hx];
        [| congruence].
      unfold supportedRuntimeIds. apply in_or_app. right. exact Hin.
    + left. unfold supportedRuntimeIds. apply in_or_app. right. exact H.
  - intros H. left. revert H. unfold getRuntimeId.
    destruct (p =? "win32")%string.
    { destruct (strictEq a "x86"); [intros [= <-]; simpl; auto |].
      destruct (strictEq a "x86_64"); [intros [= <-]; simpl; auto |].
      discriminate. }
    destruct (p =? "darwin")%string.
    { destruct (strictEq a "x86_64"); [intros [= <-]; simpl; auto |].
      discriminate. }
    destruct (p =? "linux")%string; [| discriminate].
    destruct (strictEq a "x86_64").
    + destruct dist as [d |]; [| discriminate].
      change (afterFallback d a (getExactRuntimeId (name d) (version d))
              = Ok r -> In r supportedRuntimeIds).
      intros H. pose proof (afterFallback_Ok _ _ _ _ H) as Hs.
      unfold supportedRuntimeIds. apply in_or_app. right.
      apply afterFallback_range in H as [-> | H]; [| exact H].
      destruct (getExactRuntimeId_range (name d) (version d)); congruence.
    + destruct dist; discriminate.
Qed.

Lemma X8_witness :
  In "ubuntu.16.04-x64" supportedRuntimeIds
  \/ exists provider,
      None = Some provider
      /\ getFallbackLinuxRuntimeId provider = Ok (Some "ubuntu.16.04-x64").
Proof.
  apply (X8_runtime_ids_are_a_closed_set "linux" (Some "x86_64")
           (Some (mkLinuxDistribution "zorin" "12" None)) None).
  reflexivity.
Defined.

End RuntimeIdRange.

(** ** Runtime-id resolution on linux: tables, ancestors and provider *)

Section RuntimeIdOrder.

Import LinuxRuntimeId.

Lemma known_name_helper (n v : string) :
  In n exactTableNames \/ In n fuzzyTableNames ->
  getRuntimeIdHelper n v <> unknown_distribution.
Proof.
  intros H E. apply getRuntimeIdHelper_unknown_distribution in E. tauto.
Qed.

Lemma afterFallback_known_name (d : LinuxDistribution) a (r : string) :
  getRuntimeIdHelper (name d) (version d) <> unknown_distribution ->
  afterFallback d a r
  = afterFallback (mkLinuxDistribution (name d) (version d) None) a r.
Proof.
  intros Hh. unfold afterFallback. cbn [name version idLike].
  set (r1 := if (r =? unknown_distribution)%string then _ else r).
  assert ((r1 =? unknown_distribution)%string = false) as E.
  { subst r1. destruct (r =? unknown_distribution)%string eqn:Er;
      [apply String.eqb_neq; exact Hh | exact Er]. }
  destruct (idLike d); rewrite ?E; cbn [andb]; rewrite ?E; reflexivity.
Qed.

Lemma idLikeLoop_first (pre post : list string) (id v r : string) :
  (forall x, In x pre -> getRuntimeIdHelper x v = unknown_distribution) ->
  getRuntimeIdHelper id v <> unknown_distribution ->
  idLikeLoop (pre ++ id :: post)%list v r = getRuntimeIdHelper id v.
Proof.
  intros Hpre Hid. revert r.
  induction pre as [| x pre IH]; intros r; cbn [app idLikeLoop].
  - apply String.eqb_neq in Hid. rewrite Hid. reflexivity.
  - rewrite (Hpre x) by (left; reflexivity). cbn [String.eqb negb].
    rewrite String.eqb_refl. cbn [negb].
    apply IH. intros y Hy. apply Hpre. right. exact Hy.
Qed.

Lemma getRuntimeId_exact_hit (d : LinuxDistribution) fb :
  isSentinel (getExactRuntimeId (name d) (version d)) = false ->
  getRuntimeId "linux" (Some "x86_64") (Some d) fb
  = Ok (getExactRuntimeId (name d) (version d)).
Proof.
  intros E. rewrite getRuntimeId_linux, applyFallback_real by exact E.
  cbn [bind]. apply afterFallback_real. exact E.
Qed.

(** X9: the ancestors of ID_LIKE are tried only for a name that is in
    neither table.  For a name of the exact or the fuzzy table the result
    does not depend on idLike: a known distribution of an unknown version
    is never resolved through its ancestors. *)
Theorem X9_idLike_is_ignored_for_a_known_name :
  forall (n v : string) (ids ids' : option (list string)) fb,
    In n exactTableNames \/ In n fuzzyTableNames ->
    getRuntimeId "linux" (Some "x86_64")
      (Some (mkLinuxDistribution n v ids)) fb
    = getRuntimeId "linux" (Some "x86_64")
        (Some (mkLinuxDistribution n v ids')) fb.
Proof.
  intros n v ids ids' fb Hn.
  pose proof (known_name_helper n v Hn) as Hh.
  rewrite !getRuntimeId_linux. cbn [name version].
  destruct (applyFallback _ fb) as [r | e]; cbn [bind]; [| reflexivity].
  rewrite (afterFallback_known_name (mkLinuxDistribution n v ids)) by exact Hh.
  rewrite (afterFallback_known_name (mkLinuxDistribution n v ids')) by exact Hh.
  reflexivity.
Qed.

Lemma X9_witness :
  getRuntimeId "linux" (Some "x86_64")
    (Some (mkLinuxDistribution "ubuntu" "18.04" (Some ["debian"]))) None
  = getRuntimeId "linux" (Some "x86_64")
      (Some (mkLinuxDistribution "ubuntu" "18.04" None)) None
  /\ getRuntimeId "linux" (Some "x86_64")
       (Some (mkLinuxDistribution "ubuntu" "18.04" (Some ["debian"]))) None
     = Throw (Error "Unsupported Linux distro: ubuntu, 18.04, x86_64").
Proof.
  split; [| reflexivity].
  apply (X9_idLike_is_ignored_for_a_known_name "ubuntu" "18.04").
  left. simpl. auto.
Defined.

(** X10: for a name in neither table, and a provider that is absent or
    yields nothing, the first ancestor of idLike that is in a table
    decides, looked up with the distribution's own version: its runtime id
    is returned, or resolution fails when its version is not recognised.
    The ancestors after it are never tried. *)
Theorem X10_first_known_ancestor_decides :
  forall (n v id : string) (pre post : list string) fb,
    silent fb ->
    ~ In n exactTableNames -> ~ In n fuzzyTableNames ->
    (forall x, In x pre -> ~ In x exactTableNames /\ ~ In x fuzzyTableNames) ->
    In id exactTableNames \/ In id fuzzyTableNames ->
    getRuntimeId "linux" (Some "x86_64")
      (Some (mkLinuxDistribution n v (Some (pre ++ id :: post)%list))) fb
    = if isSentinel (getRuntimeIdHelper id v)
      then Throw (Error ("Unsupported Linux distro: " ++ n ++ ", " ++ v
                         ++ ", x86_64"))
      else Ok (getRuntimeIdHelper id v).
Proof.
  intros n v id pre post fb Hfb Hx Hf Hpre Hid.
  assert (getRuntimeIdHelper n v = unknown_distribution) as Hn
      by (apply getRuntimeIdHelper_unknown_distribution; tauto).
  pose proof (known_name_helper id v Hid) as Hh.
  rewrite getRuntimeId_linux, (applyFallback_silent _ _ Hfb).
  cbn [bind name version]. unfold afterFallback. cbn [name version idLike].
  rewrite (getRuntimeIdHelper_unknown_exact _ _ Hn), String.eqb_refl, Hn.
  rewrite String.eqb_refl.
  assert ((0 <? Z.of_nat (List.length (pre ++ id :: post)%list)) = true) as ->
      by (apply Z.ltb_lt; rewrite List.length_app; simpl; lia).
  cbn [andb].
  rewrite idLikeLoop_first;
    [| intros x Hin; apply getRuntimeIdHelper_unknown_distribution;
       apply Hpre; exact Hin | exact Hh].
  unfold isSentinel. apply String.eqb_neq in Hh. rewrite Hh. cbn [negb andb orb].
  destruct (getRuntimeIdHelper id v =? unknown_version)%string; reflexivity.
Qed.

Lemma X10_witness :
  getRuntimeId "linux" (Some "x86_64")
    (Some (mkLinuxDistribution "neon" "16.04"
             (Some ["kde"; "fedora"; "ubuntu"]))) None
  = Throw (Error "Unsupported Linux distro: neon, 16.04, x86_64")
  /\ getRuntimeId "linux" (Some "x86_64")
       (Some (mkLinuxDistribution "neon" "16.04"
                (Some ["kde"; "ubuntu"; "fedora"]))) None
     = Ok "ubuntu.16.04-x64".
Proof.
  split.
  - apply (X10_first_known_ancestor_decides "neon" "16.04" "fedora"
             ["kde"] ["ubuntu"] None I).
    + simpl. intros H. repeat (destruct H as [H | H]; [discriminate H |]). exact H.
    + simpl. intros H. repeat (destruct H as [H | H]; [discriminate H |]). exact H.
    + intros x [<- | []]. split; simpl; intros H;
        repeat (destruct H as [H | H]; [discriminate H |]); exact H.
    + left. simpl. auto 10.
  - apply (X10_first_known_ancestor_decides "neon" "16.04" "ubuntu"
             ["kde"] ["fedora"] None I).
    + simpl. intros H. repeat (destruct H as [H | H]; [discriminate H |]). exact H.
    + simpl. intros H. repeat (destruct H as [H | H]; [discriminate H |]). exact H.
    + intros x [<- | []]. split; simpl; intros H;
        repeat (destruct H as [H | H]; [discriminate H |]); exact H.
    + left. simpl. auto.
Defined.

End RuntimeIdOrder.

Section RuntimeIdProvider.

Import LinuxRuntimeId.

(** X11: the provider comes before the fuzzy table and the ancestors.
    Whenever the exact lookup misses (name unknown, or version unknown),
    a real value of the provider is the result, even where the fuzzy table
    or ID_LIKE would have resolved the distribution; and a provider that
    throws makes resolution throw the same error, so that the constructed
    value has no runtime id. *)
Theorem X11_provider_comes_before_fuzzy_lookup :
  forall (d : LinuxDistribution) (provider : ILinuxRuntimeIdFallback),
    isSentinel (getExactRuntimeId (name d) (version d)) = true ->
    (forall v,
        getFallbackLinuxRuntimeId provider = Ok (Some v) ->
        v <> EmptyString -> isSentinel v = false ->
        getRuntimeId "linux" (Some "x86_64") (Some d) (Some provider) = Ok v)
    /\ (forall e,
           getFallbackLinuxRuntimeId provider = Throw e ->
           getRuntimeId "linux" (Some "x86_64") (Some d) (Some provider)
           = Throw e
           /\ newPlatformInformation "linux" (Some "x86_64") (Some d)
                (Some provider)
              = Ok (mkPlatformInformation "linux" (Some "x86_64") (Some d)
                      None)).
Proof.
  intros d provider Hx. split.
  - intros v Hp Hv Hs.
    rewrite getRuntimeId_linux, (applyFallback_adopt _ v) by assumption.
    cbn [bind]. apply afterFallback_real. exact Hs.
  - intros e He.
    assert (getRuntimeId "linux" (Some "x86_64") (Some d) (Some provider)
            = Throw e) as H.
    { rewrite getRuntimeId_linux. unfold applyFallback.
      unfold isSentinel in Hx. rewrite Hx, He. reflexivity. }
    split; [exact H |]. rewrite newPlatformInformation_Ok, H. reflexivity.
Qed.

Lemma X11_witness :
  let d := mkLinuxDistribution "galliumos" "2.0" (Some ["ubuntu"]) in
  getRuntimeId "linux" (Some "x86_64") (Some d) None = Ok "ubuntu.16.04-x64"
  /\ getRuntimeId "linux" (Some "x86_64") (Some d)
       (Some (mkFallback (Ok (Some "debian.8-x64"))))
     = Ok "debian.8-x64"
  /\ getRuntimeId "linux" (Some "x86_64") (Some d)
       (Some (mkFallback (Throw (Error "no value"))))
     = Throw (Error "no value").
Proof.
  cbv zeta. split; [reflexivity |]. split.
  - apply (proj1 (X11_provider_comes_before_fuzzy_lookup
                    (mkLinuxDistribution "galliumos" "2.0" (Some ["ubuntu"]))
                    (mkFallback (Ok (Some "debian.8-x64"))) eq_refl));
      [reflexivity | discriminate | reflexivity].
  - apply (proj2 (X11_provider_comes_before_fuzzy_lookup
                    (mkLinuxDistribution "galliumos" "2.0" (Some ["ubuntu"]))
                    (mkFallback (Throw (Error "no value"))) eq_refl)).
    reflexivity.
Defined.

(** X12: on linux only the architecture x86_64 is supported.  For every
    other architecture (a missing one too) resolution fails with the
    message of line 256, for known distributions as well, and without
    asking the provider (even one that would throw). *)
Theorem X12_linux_needs_x86_64 :
  forall (a : option string) (d : LinuxDistribution) fb,
    a <> Some "x86_64" ->
    getRuntimeId "linux" a (Some d) fb
    = Throw (Error ("Unsupported Linux distro: " ++ name d ++ ", "
                    ++ version d ++ ", " ++ toText a)).
Proof.
  intros a d fb H. unfold getRuntimeId. cbn [String.eqb Ascii.eqb Bool.eqb].
  rewrite (strictEq_false _ _ H). reflexivity.
Qed.

Lemma X12_witness :
  getRuntimeId "linux" (Some "aarch64")
    (Some (mkLinuxDistribution "ubuntu" "16.04" None))
    (Some (mkFallback (Throw TypeError)))
  = Throw (Error "Unsupported Linux distro: ubuntu, 16.04, aarch64").
Proof.
  apply (X12_linux_needs_x86_64 (Some "aarch64")
           (mkLinuxDistribution "ubuntu" "16.04" None)).
  discriminate.
Defined.

(** X13: for centos, ol, rhel and debian the version is not looked at:
    every version, "unknown" included, resolves to the one runtime id of
    the distribution (centos.7-x64 for centos and ol), whatever idLike and
    the provider are. *)
Theorem X13_version_is_ignored_for_four_distributions :
  forall (v : string) (ids : option (list string)) fb,
    getRuntimeId "linux" (Some "x86_64")
      (Some (mkLinuxDistribution "centos" v ids)) fb = Ok "centos.7-x64"
    /\ getRuntimeId "linux" (Some "x86_64")
         (Some (mkLinuxDistribution "ol" v ids)) fb = Ok "centos.7-x64"
    /\ getRuntimeId "linux" (Some "x86_64")
         (Some (mkLinuxDistribution "rhel" v ids)) fb = Ok "rhel.7-x64"
    /\ getRuntimeId "linux" (Some "x86_64")
         (Some (mkLinuxDistribution "debian" v ids)) fb = Ok "debian.8-x64".
Proof.
  intros v ids fb.
  repeat split; rewrite getRuntimeId_exact_hit; reflexivity.
Qed.

Lemma startsWith_app (p s : string) : JsString.startsWith (p ++ s) p = true.
Proof. unfold JsString.startsWith. apply prefix_app. eauto. Qed.

(** X14: linuxmint, opensuse, elementary and galliumos are matched on a
    prefix of the version.  Every linuxmint version that starts with "18"
    resolves to ubuntu.16.04-x64, every opensuse version that starts with
    "13." to opensuse.13.2-x64 and with "42." to opensuse.42.1-x64; and,
    with no provider (or a silent one), every elementary version that
    starts with "0.4" and every galliumos version that starts with "2.1"
    to ubuntu.16.04-x64. *)
Theorem X14_versions_matched_by_prefix :
  forall (rest : string) (ids : option (list string)) fb,
    getRuntimeId "linux" (Some "x86_64")
      (Some (mkLinuxDistribution "linuxmint" ("18" ++ rest) ids)) fb
    = Ok "ubuntu.16.04-x64"
    /\ getRuntimeId "linux" (Some "x86_64")
         (Some (mkLinuxDistribution "opensuse" ("13." ++ rest) ids)) fb
       = Ok "opensuse.13.2-x64"
    /\ getRuntimeId "linux" (Some "x86_64")
         (Some (mkLinuxDistribution "opensuse" ("42." ++ rest) ids)) fb
       = Ok "opensuse.42.1-x64"
    /\ (silent fb ->
        getRuntimeId "linux" (Some "x86_64")
          (Some (mkLinuxDistribution "elementary" ("0.4" ++ rest) ids)) fb
        = Ok "ubuntu.16.04-x64"
        /\ getRuntimeId "linux" (Some "x86_64")
             (Some (mkLinuxDistribution "galliumos" ("2.1" ++ rest) ids)) fb
           = Ok "ubuntu.16.04-x64").
Proof.
  intros rest ids fb.
  assert (forall p, prefix EmptyString p = true) as He
      by (intros p; destruct p; reflexivity).
  split; [| split; [| split]].
  - rewrite getRuntimeId_exact_hit; cbn [name version];
      unfold getExactRuntimeId; cbn [String.eqb Ascii.eqb Bool.eqb];
      rewrite startsWith_app; reflexivity.
  - rewrite getRuntimeId_exact_hit; cbn [name version];
      unfold getExactRuntimeId; cbn [String.eqb Ascii.eqb Bool.eqb];
      rewrite startsWith_app; reflexivity.
  - assert (JsString.startsWith ("42." ++ rest) "13." = false) as Hn
        by reflexivity.
    rewrite getRuntimeId_exact_hit; cbn [name version];
      unfold getExactRuntimeId; cbn [String.eqb Ascii.eqb Bool.eqb];
      rewrite Hn, startsWith_app; reflexivity.
  - intros Hfb.
    assert (JsString.startsWith ("0.4" ++ rest) "0.3" = false) as Hn
        by reflexivity.
    assert (JsString.startsWith ("2.1" ++ rest) "2.0" = false) as Hn'
        by reflexivity.
    split; rewrite getRuntimeId_linux, (applyFallback_silent _ _ Hfb);
      cbn [bind name version]; unfold afterFallback; cbn [name version idLike].
    + assert (getRuntimeIdHelper "elementary" ("0.4" ++ rest) = ubuntu_16_04)
        as -> by (unfold getRuntimeIdHelper;
                  cbn [getExactRuntimeId String.eqb Ascii.eqb Bool.eqb negb orb];
                  rewrite Hn, startsWith_app; reflexivity).
      destruct ids; reflexivity.
    + assert (getRuntimeIdHelper "galliumos" ("2.1" ++ rest) = ubuntu_16_04)
        as -> by (unfold getRuntimeIdHelper;
                  cbn [getExactRuntimeId String.eqb Ascii.eqb Bool.eqb negb orb];
                  rewrite Hn', startsWith_app; reflexivity).
      destruct ids; reflexivity.
Qed.

Lemma X14_witness :
  getRuntimeId "linux" (Some "x86_64")
    (Some (mkLinuxDistribution "galliumos" "2.1.3" None)) None
  = Ok "ubuntu.16.04-x64".
Proof.
  apply (proj2 (proj2 (proj2 (proj2
           (X14_versions_matched_by_prefix ".3" None None))) I)).
Defined.

(** X15: a provider that yields null, undefined or the empty string is as
    good as none: on every platform, architecture and distribution the
    result is the one obtained without a provider. *)
Theorem X15_silent_provider_is_no_provider :
  forall (p : string) (a : option string) (dist : option LinuxDistribution) fb,
    silent fb ->
    getRuntimeId p a dist fb = getRuntimeId p a dist None.
Proof.
  intros p a dist fb Hfb.
  rewrite (getRuntimeId_cases p a dist fb), (getRuntimeId_cases p a dist None).
  destruct (_ && _)%bool; [| reflexivity].
  destruct dist as [d |]; [| reflexivity].
  rewrite (applyFallback_silent _ _ Hfb). reflexivity.
Qed.

Lemma X15_witness :
  getRuntimeId "linux" (Some "x86_64")
    (Some (mkLinuxDistribution "arch" "1" (Some ["ubuntu"])))
    (Some (mkFallback (Ok (Some EmptyString))))
  = getRuntimeId "linux" (Some "x86_64")
      (Some (mkLinuxDistribution "arch" "1" (Some ["ubuntu"]))) None.
Proof.
  apply (X15_silent_provider_is_no_provider "linux" (Some "x86_64")
           (Some (mkLinuxDistribution "arch" "1" (Some ["ubuntu"])))
           (Some (mkFallback (Ok (Some EmptyString))))).
  exists (Some EmptyString). split; reflexivity.
Defined.

End RuntimeIdProvider.

(** ** The constructed value: predicates and text *)

Section PlatformValue.

Lemma truthy_nonEmpty (a : option string) (x : string) :
  truthy a = Some x -> nonEmpty x = true.
Proof.
  destruct a as [[| c s] |]; simpl; try discriminate.
  intros [= <-]. reflexivity.
Qed.

(** X16: a constructed value that has a runtime id is on exactly one of
    the three platforms: windows with win7-x86 or win7-x64, macOS with
    osx.10.11-x64, or linux, and then its architecture is x86_64 and its
    distribution is present. *)
Theorem X16_runtime_id_implies_one_platform :
  forall (p : string) (a : option string) (dist : option LinuxDistribution)
         fb (info : PlatformInformation) (r : string),
    newPlatformInformation p a dist fb = Ok info ->
    runtimeId info = Some r ->
    (isWindows info = true /\ isMacOS info = false /\ isLinux info = false
     /\ (r = "win7-x86" \/ r = "win7-x64"))
    \/ (isWindows info = false /\ isMacOS info = true /\ isLinux info = false
        /\ r = "osx.10.11-x64")
    \/ (isWindows info = false /\ isMacOS info = false /\ isLinux info = true
        /\ architecture info = Some "x86_64"
        /\ distribution info <> None).
Proof.
  intros p a dist fb info r. rewrite newPlatformInformation_Ok.
  intros [= <-]. cbn [runtimeId]. unfold isWindows, isMacOS, isLinux.
  cbn [platform architecture distribution].
  destruct (getRuntimeId p a dist fb) as [r' | e] eqn:E; [| discriminate].
  intros [= ->]. revert E. unfold getRuntimeId.
  destruct (String.eqb_spec p "win32") as [-> | _].
  { intros E. left. repeat split.
    destruct (strictEq a "x86"); [injection E as <-; auto |].
    destruct (strictEq a "x86_64"); [injection E as <-; auto | discriminate]. }
  destruct (String.eqb_spec p "darwin") as [-> | _].
  { intros E. right. left. repeat split.
    destruct (strictEq a "x86_64"); [injection E as <-; auto | discriminate]. }
  destruct (String.eqb_spec p "linux") as [-> | _]; [| discriminate].
  intros E. right. right. repeat split.
  - destruct (strictEq a "x86_64") eqn:Ea; [apply strictEq_true; exact Ea |].
    destruct dist; discriminate.
  - destruct dist; [discriminate |].
    destruct (strictEq a "x86_64"); discriminate.
Qed.

Lemma X16_witness :
  let info :=
    mkPlatformInformation "linux" (Some "x86_64")
      (Some (mkLinuxDistribution "fedora" "24" None))
      (Some "fedora.24-x64") in
  newPlatformInformation "linux" (Some "x86_64")
    (Some (mkLinuxDistribution "fedora" "24" None)) None = Ok info
  /\ isLinux info = true /\ isWindows info = false /\ isMacOS info = false.
Proof.
  cbv zeta. split; [reflexivity |].
  destruct (X16_runtime_id_implies_one_platform "linux" (Some "x86_64")
              (Some (mkLinuxDistribution "fedora" "24" None)) None
              (mkPlatformInformation "linux" (Some "x86_64")
                 (Some (mkLinuxDistribution "fedora" "24" None))
                 (Some "fedora.24-x64"))
              "fedora.24-x64" eq_refl eq_refl)
    as [(H & _) | [(_ & H & _) | (H1 & H2 & H3 & _)]].
  - discriminate H.
  - discriminate H.
  - auto.
Defined.

(** X17: the text of a value is its parts that are present (a non-empty
    platform, a non-empty architecture, the distribution as
    "name=..., version=...") joined by ", ": no separator is written
    before the first part or for a part that is missing. *)
Theorem X17_toString_joins_the_present_parts :
  forall this : PlatformInformation,
    PlatformInformation_toString this
    = String.concat ", " (shownParts this).
Proof.
  intros [p a dist rid]. unfold PlatformInformation_toString, shownParts.
  cbn [platform architecture distribution].
  destruct (truthy a) as [x |] eqn:Ea.
  - pose proof (truthy_nonEmpty _ _ Ea) as Hx.
    destruct x as [| cx x]; [discriminate |].
    destruct p as [| c p]; destruct dist as [d |]; cbn; 
      rewrite ?app_assoc; reflexivity.
  - destruct p as [| c p]; destruct dist as [d |]; cbn;
      rewrite ?app_assoc; reflexivity.
Qed.

End PlatformValue.

(** ** Detection on a host *)

Section Detection.

Lemma LinuxDistribution_GetCurrent_cases (host : Host) :
  LinuxDistribution_GetCurrent host
  = Ok match readFile host "/etc/os-release" with
       | Ok data => FromReleaseInfo data (os_EOL host)
       | Throw _ =>
           match readFile host "/usr/lib/os-release" with
           | Ok data => FromReleaseInfo data (os_EOL host)
           | Throw _ => mkLinuxDistribution unknown unknown None
           end
       end.
Proof.
  unfold LinuxDistribution_GetCurrent, LinuxDistribution_FromFilePath.
  destruct (readFile host "/etc/os-release"); cbn; [reflexivity |].
  destruct (readFile host "/usr/lib/os-release"); reflexivity.
Qed.

Lemma GetWindowsArchitecture_cases (host : Host) :
  (GetWindowsArchitecture host = Ok (Some "x86")
   /\ PROCESSOR_ARCHITECTURE host = Some "x86"
   /\ PROCESSOR_ARCHITEW6432 host = None)
  \/ (GetWindowsArchitecture host = Ok (Some "x86_64")
      /\ ~ (PROCESSOR_ARCHITECTURE host = Some "x86"
            /\ PROCESSOR_ARCHITEW6432 host = None)).
Proof.
  unfold GetWindowsArchitecture.
  destruct (strictEq (PROCESSOR_ARCHITECTURE host) "x86") eqn:E.
  - apply strictEq_true in E.
    destruct (PROCESSOR_ARCHITEW6432 host) eqn:E2; cbn [andb].
    + right. split; [reflexivity |]. intros [_ H]. discriminate H.
    + left. auto.
  - right. split; [reflexivity |]. intros [H _].
    apply strictEq_true in H. congruence.
Qed.

(** X18: reading the distribution never fails.  [/etc/os-release] is
    parsed when it can be read; [/usr/lib/os-release] is read only when it
    cannot; and when neither can be read the distribution is
    unknown/unknown without idLike. *)
Theorem X18_distribution_detection_never_rejects :
  forall host : Host,
  exists d : LinuxDistribution,
    LinuxDistribution_GetCurrent host = Ok d
    /\ (forall data,
           readFile host "/etc/os-release" = Ok data ->
           d = FromReleaseInfo data (os_EOL host))
    /\ (forall e data,
           readFile host "/etc/os-release" = Throw e ->
           readFile host "/usr/lib/os-release" = Ok data ->
           d = FromReleaseInfo data (os_EOL host))
    /\ (forall e e',
           readFile host "/etc/os-release" = Throw e ->
           readFile host "/usr/lib/os-release" = Throw e' ->
           d = mkLinuxDistribution "unknown" "unknown" None).
Proof.
  intros host. rewrite LinuxDistribution_GetCurrent_cases.
  eexists. split; [reflexivity |].
  repeat split.
  - intros data ->. reflexivity.
  - intros e data -> ->. reflexivity.
  - intros e e' -> ->. reflexivity.
Qed.

(** X19: detection throws at once, with "Unsupported platform: ..." (and
    runs no command and reads no file), exactly when the platform of the
    host is none of win32, darwin and linux; otherwise it returns a
    promise.  A value it resolves with has the platform of the host, and a
    distribution exactly on linux. *)
Theorem X19_detection_throws_only_for_unsupported_platforms :
  forall (host : Host) fb,
    (In (os_platform host) ["win32"; "darwin"; "linux"] ->
     exists pr, PlatformInformation_GetCurrent host fb = Ok pr)
    /\ (~ In (os_platform host) ["win32"; "darwin"; "linux"] ->
        PlatformInformation_GetCurrent host fb
        = Throw (Error ("Unsupported platform: " ++ os_platform host)))
    /\ (forall info,
           PlatformInformation_GetCurrent host fb = Ok (Ok info) ->
           platform info = os_platform host
           /\ In (platform info) ["win32"; "darwin"; "linux"]
           /\ (distribution info <> None <-> isLinux info = true)).
Proof.
  intros host fb. unfold PlatformInformation_GetCurrent, whenDetected, isLinux.
  destruct (String.eqb_spec (os_platform host) "win32") as [Ew | Nw].
  { rewrite Ew. split; [eauto |]. split; [simpl; tauto |].
    intros info [= H]. revert H.
    destruct (promiseAll _ _) as [[a d] |] eqn:Ep; cbn [bind]; [| discriminate].
    rewrite newPlatformInformation_Ok. intros [= <-]. cbn.
    destruct (GetWindowsArchitecture host); [| discriminate].
    injection Ep as _ <-. repeat split; auto; try congruence; discriminate. }
  destruct (String.eqb_spec (os_platform host) "darwin") as [Ed | Nd].
  { rewrite Ed. split; [eauto |]. split; [simpl; tauto |].
    intros info [= H]. revert H.
    destruct (promiseAll _ _) as [[a d] |] eqn:Ep; cbn [bind]; [| discriminate].
    rewrite newPlatformInformation_Ok. intros [= <-]. cbn.
    destruct (GetUnixArchitecture host); [| discriminate].
    injection Ep as _ <-. repeat split; auto; try congruence; discriminate. }
  destruct (String.eqb_spec (os_platform host) "linux") as [El | Nl].
  { rewrite El. split; [eauto |]. split; [simpl; tauto |].
    intros info [= H]. revert H.
    destruct (promiseAll _ _) as [[a d] |] eqn:Ep; cbn [bind]; [| discriminate].
    rewrite newPlatformInformation_Ok. intros [= <-]. cbn.
    rewrite LinuxDistribution_GetCurrent_cases in Ep. cbn [bind] in Ep.
    destruct (GetUnixArchitecture host); [| discriminate].
    injection Ep as _ <-. repeat split; auto; try congruence; discriminate. }
  split; [| split].
  - simpl. intros [H | [H | [H | []]]]; congruence.
  - reflexivity.
  - discriminate.
Qed.

Lemma X19_witness :
  let host :=
    mkHost "freebsd" nl None None (fun _ => Throw TypeError)
      (fun _ => Throw TypeError) in
  PlatformInformation_GetCurrent host None
  = Throw (Error "Unsupported platform: freebsd").
Proof.
  cbv zeta.
  apply (proj1 (proj2 (X19_detection_throws_only_for_unsupported_platforms
                         (mkHost "freebsd" nl None None
                            (fun _ => Throw TypeError)
                            (fun _ => Throw TypeError)) None))).
  simpl. intros [H | [H | [H | []]]]; discriminate H.
Defined.

(** X20: on windows detection always succeeds and always has a runtime
    id, whatever commands and files would give: architecture x86 and
    win7-x86 when PROCESSOR_ARCHITECTURE is "x86" and PROCESSOR_ARCHITEW6432
    is not set, architecture x86_64 and win7-x64 in every other case; the
    distribution is absent. *)
Theorem X20_windows_detection_always_succeeds :
  forall (host : Host) fb,
    os_platform host = "win32" ->
    (PROCESSOR_ARCHITECTURE host = Some "x86"
     /\ PROCESSOR_ARCHITEW6432 host = None
     /\ PlatformInformation_GetCurrent host fb
        = Ok (Ok (mkPlatformInformation "win32" (Some "x86") None
                    (Some "win7-x86"))))
    \/ (~ (PROCESSOR_ARCHITECTURE host = Some "x86"
           /\ PROCESSOR_ARCHITEW6432 host = None)
        /\ PlatformInformation_GetCurrent host fb
           = Ok (Ok (mkPlatformInformation "win32" (Some "x86_64") None
                       (Some "win7-x64")))).
Proof.
  intros host fb Hp. unfold PlatformInformation_GetCurrent, whenDetected.
  rewrite Hp. cbn [String.eqb Ascii.eqb Bool.eqb].
  destruct (GetWindowsArchitecture_cases host) as [(-> & H1 & H2) | (-> & H)].
  - left. repeat split; assumption || reflexivity.
  - right. split; [exact H | reflexivity].
Qed.

Lemma X20_witness :
  let host :=
    mkHost "win32" crlf (Some "x86") (Some "AMD64")
      (fun _ => Throw TypeError) (fun _ => Throw TypeError) in
  PlatformInformation_GetCurrent host None
  = Ok (Ok (mkPlatformInformation "win32" (Some "x86_64") None
              (Some "win7-x64"))).
Proof.
  cbv zeta.
  destruct (X20_windows_detection_always_succeeds
              (mkHost "win32" crlf (Some "x86") (Some "AMD64")
                 (fun _ => Throw TypeError) (fun _ => Throw TypeError))
              None eq_refl) as [(_ & H & _) | (_ & H)].
  - discriminate H.
  - exact H.
Defined.

End Detection.

Section UnixDetection.

Lemma getRuntimeId_unknown_unknown (a : option string) fb :
  silent fb ->
  exists e,
    getRuntimeId "linux" a (Some (mkLinuxDistribution unknown unknown None)) fb
    = Throw e.
Proof.
  intros Hfb. destruct (strictEq a "x86_64") eqn:Ea.
  - apply strictEq_true in Ea. subst a.
    rewrite getRuntimeId_linux, (applyFallback_silent _ _ Hfb).
    eexists. reflexivity.
  - unfold getRuntimeId. cbn [String.eqb Ascii.eqb Bool.eqb].
    rewrite Ea. eexists. reflexivity.
Qed.

(** X21: on linux and macOS the promise of detection is rejected exactly
    when the command [uname -m] fails, with the error of the command;
    unreadable release files never reject it.  When the command succeeds
    the promise resolves, and the architecture is the output with the
    white space at its ends removed, or absent when the output is empty. *)
Theorem X21_unix_detection_fails_only_with_the_command :
  forall (host : Host) fb,
    os_platform host = "linux" \/ os_platform host = "darwin" ->
    (forall e,
        execChildProcess host "uname -m" = Throw e ->
        PlatformInformation_GetCurrent host fb = Ok (Throw e))
    /\ (forall out,
           execChildProcess host "uname -m" = Ok out ->
           exists info,
             PlatformInformation_GetCurrent host fb = Ok (Ok info)
             /\ architecture info = unixArchitecture out).
Proof.
  intros host fb Hp.
  unfold PlatformInformation_GetCurrent, whenDetected, GetUnixArchitecture,
    unixArchitecture.
  rewrite LinuxDistribution_GetCurrent_cases.
  destruct Hp as [-> | ->]; cbn [String.eqb Ascii.eqb Bool.eqb]; split.
  - intros e ->. reflexivity.
  - intros out ->. cbn [bind].
    destruct (truthy out); cbn [promiseAll bind fst snd];
      rewrite newPlatformInformation_Ok; eexists; split; reflexivity.
  - intros e ->. reflexivity.
  - intros out ->. cbn [bind].
    destruct (truthy out); cbn [promiseAll bind fst snd];
      rewrite newPlatformInformation_Ok; eexists; split; reflexivity.
Qed.

Lemma X21_witness :
  let host :=
    mkHost "darwin" nl None None (fun _ => Throw TypeError)
      (fun _ => Ok (Some ("x86_64" ++ nl)%string)) in
  exists info,
    PlatformInformation_GetCurrent host None = Ok (Ok info)
    /\ architecture info = Some "x86_64".
Proof.
  cbv zeta.
  apply (proj2 (X21_unix_detection_fails_only_with_the_command
                  (mkHost "darwin" nl None None (fun _ => Throw TypeError)
                     (fun _ => Ok (Some ("x86_64" ++ nl)%string)))
                  None (or_intror eq_refl))
           (Some ("x86_64" ++ nl)%string) eq_refl).
Defined.

(** X22: on a linux host where neither release file can be read, and with
    a provider that is absent or yields nothing, detection still succeeds
    when the command does: the value has the unknown/unknown distribution
    and no runtime id, whatever the architecture is. *)
Theorem X22_no_release_file_means_no_runtime_id :
  forall (host : Host) fb (e e' : exn) (out : option string),
    os_platform host = "linux" ->
    silent fb ->
    readFile host "/etc/os-release" = Throw e ->
    readFile host "/usr/lib/os-release" = Throw e' ->
    execChildProcess host "uname -m" = Ok out ->
    PlatformInformation_GetCurrent host fb
    = Ok (Ok (mkPlatformInformation "linux" (unixArchitecture out)
                (Some (mkLinuxDistribution "unknown" "unknown" None))
                None)).
Proof.
  intros host fb e e' out Hp Hfb H1 H2 Hc.
  unfold PlatformInformation_GetCurrent, whenDetected, GetUnixArchitecture,
    unixArchitecture.
  rewrite LinuxDistribution_GetCurrent_cases, Hp, H1, H2, Hc.
  cbn [String.eqb Ascii.eqb Bool.eqb bind].
  destruct (truthy out) as [a |]; cbn [promiseAll bind fst snd];
    rewrite newPlatformInformation_Ok.
  - destruct (getRuntimeId_unknown_unknown (Some (JsString.trim a)) fb Hfb)
      as [x ->].
    reflexivity.
  - destruct (getRuntimeId_unknown_unknown None fb Hfb) as [x ->].
    reflexivity.
Qed.

Lemma X22_witness :
  PlatformInformation_GetCurrent
    (mkHost "linux" nl None None (fun _ => Throw (Error "ENOENT"))
       (fun _ => Ok (Some ("x86_64" ++ nl)%string)))
    None
  = Ok (Ok (mkPlatformInformation "linux" (Some "x86_64")
              (Some (mkLinuxDistribution "unknown" "unknown" None)) None)).
Proof.
  apply (X22_no_release_file_means_no_runtime_id
           (mkHost "linux" nl None None (fun _ => Throw (Error "ENOENT"))
              (fun _ => Ok (Some ("x86_64" ++ nl)%string)))
           None (Error "ENOENT") (Error "ENOENT")
           (Some ("x86_64" ++ nl)%string) eq_refl I eq_refl eq_refl eq_refl).
Defined.

End UnixDetection.
